(** * The intelligent-RAG pipes: a shallow embedding and its properties

    The repository holds two adapter modules, [intelligent_rag_pipe.py]
    ("Flavor A") and [openwebui_pipe.py] ("Flavor B").  Each defines a class
    [Pipe] with a throttled notifier [emit_status] and the chat-turn handler
    [pipe].  Both are embedded below as state-passing functions over an
    explicit world; Python exceptions are an explicit outcome. *)

From Stdlib Require Import String Ascii List ZArith Bool Lia DecimalString.
Import ListNotations.
Local Open Scope string_scope.
Local Open Scope Z_scope.
Set Warnings "-register-all".

(** ** Python values

    Every value the adapters handle is either a string, or came out of a JSON
    document (the host's request body, the service's reply), or is a dict or
    list built from those.  Dicts keep insertion order, so they are
    association lists.  A [string] is read as a sequence of code points below
    256; floats do not occur in the model. *)

Inductive value : Type :=
| VNone
| VBool (b : bool)
| VInt (z : Z)
| VStr (s : string)
| VList (l : list value)
| VDict (d : list (string * value)).

Definition dict := list (string * value).

Fixpoint dict_get (d : dict) (k : string) : option value :=
  match d with
  | [] => None
  | (k', v) :: d' => if String.eqb k' k then Some v else dict_get d' k
  end.

Fixpoint dict_set (d : dict) (k : string) (v : value) : dict :=
  match d with
  | [] => [(k, v)]
  | (k', v') :: d' =>
      if String.eqb k' k then (k', v) :: d' else (k', v') :: dict_set d' k v
  end.

(** [bool(v)] *)
Definition truthy (v : value) : bool :=
  match v with
  | VNone => false
  | VBool b => b
  | VInt z => negb (z =? 0)
  | VStr s => negb (String.eqb s EmptyString)
  | VList l => match l with [] => false | _ => true end
  | VDict d => match d with [] => false | _ => true end
  end.

(** [type(v).__name__] *)
Definition type_name (v : value) : string :=
  match v with
  | VNone => "NoneType"
  | VBool _ => "bool"
  | VInt _ => "int"
  | VStr _ => "str"
  | VList _ => "list"
  | VDict _ => "dict"
  end.

(** ** Strings *)

Definition nl : string := String (ascii_of_nat 10) EmptyString.
Definition dquote : string := String (ascii_of_nat 34) EmptyString.
Definition backslash : string := String (ascii_of_nat 92) EmptyString.

(** [sep.join(l)] *)
Fixpoint join (sep : string) (l : list string) : string :=
  match l with
  | [] => EmptyString
  | [s] => s
  | s :: l' => s ++ sep ++ join sep l'
  end.

(** [str(z)] for an int *)
Definition str_of_int (z : Z) : string := NilZero.string_of_int (Z.to_int z).

Definition hex_digit (n : nat) : string :=
  String (nth n (list_ascii_of_string "0123456789abcdef") "0"%char) EmptyString.

Definition hex2 (n : nat) : string :=
  hex_digit (Nat.div n 16) ++ hex_digit (Nat.modulo n 16).

Fixpoint concat_map (f : ascii -> string) (s : string) : string :=
  match s with
  | EmptyString => EmptyString
  | String c s' => f c ++ concat_map f s'
  end.

Fixpoint has_char (c : ascii) (s : string) : bool :=
  match s with
  | EmptyString => false
  | String c' s' => if Ascii.eqb c' c then true else has_char c s'
  end.

(** [json.dumps] of one character of a str (ensure_ascii is on): the short
    escapes, [\u00xx] for the rest outside the printable ASCII range. *)
Definition json_escape_char (c : ascii) : string :=
  let n := nat_of_ascii c in
  if Nat.eqb n 34 then backslash ++ dquote
  else if Nat.eqb n 92 then backslash ++ backslash
  else if Nat.eqb n 10 then backslash ++ "n"
  else if Nat.eqb n 13 then backslash ++ "r"
  else if Nat.eqb n 9 then backslash ++ "t"
  else if Nat.eqb n 8 then backslash ++ "b"
  else if Nat.eqb n 12 then backslash ++ "f"
  else if (Nat.leb 32 n && Nat.leb n 126)%bool then String c EmptyString
  else backslash ++ "u00" ++ hex2 n.

Definition json_string (s : string) : string :=
  dquote ++ concat_map json_escape_char s ++ dquote.

(** [repr] of one character of a str, inside the quote [q]. *)
Definition repr_char (q : ascii) (c : ascii) : string :=
  let n := nat_of_ascii c in
  if (Ascii.eqb c q || Nat.eqb n 92)%bool then backslash ++ String c EmptyString
  else if Nat.eqb n 9 then backslash ++ "t"
  else if Nat.eqb n 10 then backslash ++ "n"
  else if Nat.eqb n 13 then backslash ++ "r"
  else if (Nat.ltb n 32 || Nat.eqb n 127
           || (Nat.leb 128 n && Nat.leb n 160) || Nat.eqb n 173)%bool
       then backslash ++ "x" ++ hex2 n
  else String c EmptyString.

(** [repr(s)] for a str: single quotes, unless the text has a single quote
    and no double quote. *)
Definition repr_str (s : string) : string :=
  let q := if (has_char "'"%char s && negb (has_char (ascii_of_nat 34) s))%bool
           then ascii_of_nat 34 else "'"%char in
  String q EmptyString ++ concat_map (repr_char q) s ++ String q EmptyString.

(** [repr(v)] *)
Fixpoint repr (v : value) : string :=
  match v with
  | VNone => "None"
  | VBool true => "True"
  | VBool false => "False"
  | VInt z => str_of_int z
  | VStr s => repr_str s
  | VList l => "[" ++ join ", " (map repr l) ++ "]"
  | VDict d =>
      "{" ++ join ", " (map (fun kv => repr_str (fst kv) ++ ": " ++ repr (snd kv)) d)
          ++ "}"
  end.

(** [str(v)], which is also what an f-string field [{v}] inserts. *)
Definition py_str (v : value) : string :=
  match v with
  | VStr s => s
  | _ => repr v
  end.

Fixpoint spaces (n : nat) : string :=
  match n with
  | O => EmptyString
  | S n' => " " ++ spaces n'
  end.

(** [json.dumps(v, indent=2)]: [lvl] is the current nesting level; items are
    separated by a comma and a line break, keys by a colon and a space. *)
Fixpoint json_dumps_at (lvl : nat) (v : value) : string :=
  match v with
  | VNone => "null"
  | VBool true => "true"
  | VBool false => "false"
  | VInt z => str_of_int z
  | VStr s => json_string s
  | VList [] => "[]"
  | VList l =>
      let ind := nl ++ spaces (2 * S lvl) in
      "[" ++ ind ++ join ("," ++ ind) (map (json_dumps_at (S lvl)) l)
          ++ nl ++ spaces (2 * lvl) ++ "]"
  | VDict [] => "{}"
  | VDict d =>
      let ind := nl ++ spaces (2 * S lvl) in
      "{" ++ ind
          ++ join ("," ++ ind)
               (map (fun kv => json_string (fst kv) ++ ": "
                                 ++ json_dumps_at (S lvl) (snd kv)) d)
          ++ nl ++ spaces (2 * lvl) ++ "}"
  end.

Definition json_dumps (v : value) : string := json_dumps_at 0 v.


(** ** Exceptions and outcomes *)

Inductive exn : Type :=
| KeyError (key : value)
| IndexError (msg : string)
| TypeError (msg : string)
| AttributeError (msg : string)
| UnboundLocalError (name : string)
| Exception (msg : string)          (* [raise Exception(msg)] in the adapters *)
| RequestException (msg : string)   (* raised by [requests.post] *)
| JSONDecodeError (msg : string).   (* raised by [response.json()] *)

(** [str(e)]; the interpreter's own texts are those of CPython 3.11. *)
Definition exn_str (e : exn) : string :=
  match e with
  | KeyError k => repr k
  | IndexError m | TypeError m | AttributeError m
  | Exception m | RequestException m | JSONDecodeError m => m
  | UnboundLocalError n =>
      "cannot access local variable '" ++ n
        ++ "' where it is not associated with a value"
  end.

Inductive outcome (A : Type) : Type :=
| Return (a : A)
| Raise (e : exn).
Arguments Return {A} a.
Arguments Raise {A} e.

Definition not_subscriptable {A} (v : value) : outcome A :=
  Raise (TypeError ("'" ++ type_name v ++ "' object is not subscriptable")).

Fixpoint last_char (s : string) : string :=
  match s with
  | EmptyString => EmptyString
  | String c EmptyString => s
  | String _ s' => last_char s'
  end.

(** [v[-1]] *)
Definition index_last (v : value) : outcome value :=
  match v with
  | VList [] => Raise (IndexError "list index out of range")
  | VList l => Return (last l VNone)
  | VStr EmptyString => Raise (IndexError "string index out of range")
  | VStr s => Return (VStr (last_char s))
  | VDict _ => Raise (KeyError (VInt (-1)))
  | _ => not_subscriptable v
  end.

(** [v[k]] for a str key [k] *)
Definition subscript (v : value) (k : string) : outcome value :=
  match v with
  | VDict d =>
      match dict_get d k with
      | Some x => Return x
      | None => Raise (KeyError (VStr k))
      end
  | VList _ => Raise (TypeError "list indices must be integers or slices, not str")
  | VStr _ => Raise (TypeError "string indices must be integers, not 'str'")
  | _ => not_subscriptable v
  end.

(** [v.get(k, default)] *)
Definition method_get (v : value) (k : string) (default : value) : outcome value :=
  match v with
  | VDict d =>
      match dict_get d k with
      | Some x => Return x
      | None => Return default
      end
  | _ => Raise (AttributeError
                  ("'" ++ type_name v ++ "' object has no attribute 'get'"))
  end.

Fixpoint is_substring (k s : string) : bool :=
  (String.prefix k s
   || match s with
      | EmptyString => false
      | String _ s' => is_substring k s'
      end)%bool.

Definition is_str (k : string) (v : value) : bool :=
  match v with
  | VStr s => String.eqb s k
  | _ => false
  end.

(** [k in v] for a str [k] *)
Definition contains (k : string) (v : value) : outcome bool :=
  match v with
  | VDict d => Return (match dict_get d k with Some _ => true | None => false end)
  | VList l => Return (existsb (is_str k) l)
  | VStr s => Return (is_substring k s)
  | _ => Raise (TypeError
                  ("argument of type '" ++ type_name v ++ "' is not iterable"))
  end.

(** The items of [v[:-1]], as a [for] loop visits them. *)
Definition iter_init (v : value) : outcome (list value) :=
  match v with
  | VList l => Return (removelast l)
  | VStr s =>
      Return (map (fun c => VStr (String c EmptyString))
                  (removelast (list_ascii_of_string s)))
  | VDict _ => Raise (TypeError "unhashable type: 'slice'")
  | _ => not_subscriptable v
  end.

(** ** The world of one adapter instance

    [time] is the type of clock readings ([time.time()] returns a float);
    the notifier only subtracts and compares them, so both operations are
    left abstract and every result below holds for any arithmetic. *)

Class TimeOps (time : Type) : Type := {
  tsub : time -> time -> time;      (* [a - b] *)
  tge : time -> time -> bool        (* [a >= b] *)
}.

(** The event sink: a Python function, of which the adapters look at the
    captured variables ([__closure__]: [None], or the cells' contents). *)
Record emitter : Type := { closure : option (list value) }.

Record request : Type := {
  url : string;
  json : value;
  headers : dict
}.

Record response : Type := {
  status_code : Z;
  text : string;
  response_json : outcome value      (* what [response.json()] does *)
}.

Section Runtime.
Context {time : Type}.

Record Valves : Type := {
  server_url : string;
  project_id : string;
  thinking_depth : Z;
  emit_interval : time;
  enable_status_indicator : bool
}.

(** [valves] and [last_emit_time] are the fields of [self]; [body] is the
    dict the host passes in, which the adapter mutates in place; [events]
    are the dicts handed to the sink and [requests] the HTTP calls made,
    both oldest first; [clock_reads] counts the calls to [time.time()]. *)
Record world : Type := {
  valves : Valves;
  last_emit_time : time;
  body : dict;
  events : list value;
  requests : list request;
  clock_reads : nat
}.

Definition M (A : Type) : Type := world -> outcome A * world.

Definition ret {A} (a : A) : M A := fun w => (Return a, w).

Definition raise {A} (e : exn) : M A := fun w => (Raise e, w).

Definition bind {A B} (m : M A) (k : A -> M B) : M B :=
  fun w =>
    match m w with
    | (Return a, w') => k a w'
    | (Raise e, w') => (Raise e, w')
    end.

(** [try: m  except Exception as e: h e]; what [m] did to the world before
    it raised stays done. *)
Definition try_except {A} (m : M A) (h : exn -> M A) : M A :=
  fun w =>
    match m w with
    | (Return a, w') => (Return a, w')
    | (Raise e, w') => h e w'
    end.

Definition lift {A} (o : outcome A) : M A := fun w => (o, w).

Definition read {A} (f : world -> A) : M A := fun w => (Return (f w), w).

Definition set_last_emit_time (t : time) : M unit :=
  fun w => (Return tt, {| valves := valves w; last_emit_time := t;
                          body := body w; events := events w;
                          requests := requests w;
                          clock_reads := clock_reads w |}).

Definition set_body (b : dict) (w : world) : world :=
  {| valves := valves w; last_emit_time := last_emit_time w;
     body := b; events := events w;
     requests := requests w; clock_reads := clock_reads w |}.

(** [await __event_emitter__(ev)] with a sink that accepts the event. *)
Definition send (ev : value) : M unit :=
  fun w => (Return tt, {| valves := valves w;
                          last_emit_time := last_emit_time w;
                          body := body w; events := events w ++ [ev];
                          requests := requests w;
                          clock_reads := clock_reads w |}).

(** [body.get(k, default)] *)
Definition body_get (k : string) (default : value) : M value :=
  fun w => (Return (match dict_get (body w) k with
                    | Some v => v
                    | None => default
                    end), w).

(** [body["messages"].append(m)] *)
Definition body_messages_append (m : value) : M unit :=
  fun w =>
    match dict_get (body w) "messages" with
    | None => (Raise (KeyError (VStr "messages")), w)
    | Some (VList l) =>
        (Return tt, set_body (dict_set (body w) "messages" (VList (l ++ [m]))) w)
    | Some v =>
        (Raise (AttributeError
                  ("'" ++ type_name v ++ "' object has no attribute 'append'")), w)
    end.

Section Host.
(** The host's clock, by the number of earlier readings, and the service,
    by the request it is sent. *)
Variable clock : nat -> time.
Variable post : request -> outcome response.

(** [time.time()] *)
Definition time_time : M time :=
  fun w => (Return (clock (clock_reads w)),
            {| valves := valves w; last_emit_time := last_emit_time w;
               body := body w; events := events w;
               requests := requests w;
               clock_reads := S (clock_reads w) |}).

(** [requests.post(u, json=payload, headers=hs)] *)
Definition requests_post (u : string) (payload : value) (hs : dict)
  : M response :=
  fun w =>
    let r := {| url := u; json := payload; headers := hs |} in
    (post r, {| valves := valves w; last_emit_time := last_emit_time w;
                body := body w; events := events w;
                requests := requests w ++ [r];
                clock_reads := clock_reads w |}).
End Host.
End Runtime.

Arguments Valves : clear implicits.
Arguments world : clear implicits.
Arguments M : clear implicits.

Declare Scope py_scope.
Delimit Scope py_scope with py.
Notation "x <- c1 ;; c2" := (bind c1 (fun x => c2))
  (at level 61, c1 at next level, right associativity) : py_scope.
Notation "c1 ;; c2" := (bind c1 (fun _ => c2))
  (at level 61, right associativity) : py_scope.
Local Open Scope py_scope.

(** The event dict both modules build in [emit_status]. *)
Definition status_event (level message : string) (done : bool) : value :=
  VDict [("type", VStr "status");
         ("data", VDict [("status", VStr (if done then "complete" else "in_progress"));
                         ("level", VStr level);
                         ("description", VStr message);
                         ("done", VBool done)])].

(** [extract_event_info], the same text in both modules. *)
Fixpoint first_request_info (cells : list value) : value * value :=
  match cells with
  | [] => (VNone, VNone)
  | VDict request_info :: _ =>
      (match dict_get request_info "chat_id" with Some v => v | None => VNone end,
       match dict_get request_info "message_id" with Some v => v | None => VNone end)
  | _ :: cells' => first_request_info cells'
  end.

Definition extract_event_info (event_emitter : option emitter) : value * value :=
  match event_emitter with
  | None => (VNone, VNone)
  | Some e =>
      match closure e with
      | None | Some [] => (VNone, VNone)
      | Some cells => first_request_info cells
      end
  end.

(** The two results a block of [pipe] can have: it executed [return v], or
    it ran to its end, leaving the local [answer] bound or not. *)
Inductive flow : Type :=
| Returned (v : value)
| Continue (answer : option value).

Definition error_result (msg : string) : value := VDict [("error", VStr msg)].

Definition message (role : string) (content : value) : value :=
  VDict [("role", VStr role); ("content", content)].

Definition no_messages : string := "No messages found in the request body".

(** ** Flavor A: [intelligent_rag_pipe.py] *)

Module IntelligentRagPipe.
Section Pipe.
Context {time : Type} {ops : TimeOps time}.
Variable clock : nat -> time.
Variable post : request -> outcome response.

Definition emit_status (event_emitter : option emitter)
  (level message : string) (done : bool) : M time unit :=
  current_time <- time_time clock ;;
  self_valves <- read valves ;;
  self_last_emit_time <- read last_emit_time ;;
  if (match event_emitter with Some _ => true | None => false end
      && enable_status_indicator self_valves
      && (tge (tsub current_time self_last_emit_time) (emit_interval self_valves)
          || done))%bool
  then
    send (status_event level message done) ;;
    set_last_emit_time current_time
  else ret tt.

(** The [if messages: ... else: ...] statement of [pipe]. *)
Definition pipe_branches (event_emitter : option emitter) (messages : value)
  : M time flow :=
  if truthy messages then
    last_message <- lift (index_last messages) ;;
    question <- lift (subscript last_message "content") ;;
    try_except
      (let headers := [("Content-Type", VStr "application/json")] in
       self_valves <- read valves ;;
       let payload :=
         VDict [("projectId", VStr (project_id self_valves));
                ("query", question);
                ("thinkingDepth", VInt (thinking_depth self_valves))] in
       response <- requests_post post (server_url self_valves ++ "/api/query")
                     payload headers ;;
       if status_code response =? 200 then
         rag_response <- lift (response_json response) ;;
         answer <- lift (method_get rag_response "answer" (VStr EmptyString)) ;;
         log <- lift (method_get rag_response "log" (VStr EmptyString)) ;;
         (if truthy log
          then body_messages_append
                 (message "system" (VStr ("Thinking process:" ++ nl ++ py_str log)))
          else ret tt) ;;
         body_messages_append (message "assistant" answer) ;;
         ret (Continue (Some answer))
       else
         raise (Exception ("Error: " ++ str_of_int (status_code response)
                             ++ " - " ++ text response)))
      (fun e =>
         emit_status event_emitter "error"
           ("Error during RAG query: " ++ exn_str e) true ;;
         ret (Returned (error_result (exn_str e))))
  else
    emit_status event_emitter "error" no_messages true ;;
    body_messages_append (message "assistant" (VStr no_messages)) ;;
    ret (Continue None).

Definition pipe (event_emitter : option emitter) : M time value :=
  emit_status event_emitter "info" "Querying intelligent RAG server..." false ;;
  let '(chat_id, _) := extract_event_info event_emitter in
  messages <- body_get "messages" (VList []) ;;
  fl <- pipe_branches event_emitter messages ;;
  match fl with
  | Returned v => ret v
  | Continue answer =>
      emit_status event_emitter "info" "Complete" true ;;
      match answer with
      | Some a => ret a
      | None => raise (UnboundLocalError "answer")
      end
  end.

End Pipe.
End IntelligentRagPipe.

(** ** Flavor B: [openwebui_pipe.py] *)

Module OpenwebuiPipe.
Section Pipe.
Context {time : Type} {ops : TimeOps time}.
Variable clock : nat -> time.
Variable post : request -> outcome response.
(** [urllib.parse.urljoin], a library function, taken as a total function
    on strings. *)
Variable urljoin : string -> string -> string.

Definition emit_status (event_emitter : option emitter)
  (level message : string) (done : bool) : M time unit :=
  current_time <- time_time clock ;;
  self_valves <- read valves ;;
  self_last_emit_time <- read last_emit_time ;;
  if (match event_emitter with Some _ => true | None => false end
      && enable_status_indicator self_valves
      && (tge (tsub current_time self_last_emit_time) (emit_interval self_valves)
          || done))%bool
  then
    send (status_event level message done) ;;
    set_last_emit_time current_time
  else ret tt.

(** The loop [for msg in messages[:-1]: ...], which fills [context]. *)
Fixpoint build_context (msgs : list value) (context : list string)
  : outcome (list string) :=
  match msgs with
  | [] => Return context
  | msg :: msgs' =>
      match subscript msg "role" with
      | Raise e => Raise e
      | Return role =>
          if (is_str "assistant" role || is_str "user" role)%bool then
            match subscript msg "role", subscript msg "content" with
            | Return r, Return c =>
                build_context msgs' (context ++ [py_str r ++ ": " ++ py_str c])
            | Raise e, _ | _, Raise e => Raise e
            end
          else build_context msgs' context
      end
  end.

Definition pipe (event_emitter : option emitter) : M time value :=
  emit_status event_emitter "info" "Calling Intelligent RAG Server..." false ;;
  let '(chat_id, _) := extract_event_info event_emitter in
  messages <- body_get "messages" (VList []) ;;
  if truthy messages then
    last_message <- lift (index_last messages) ;;
    question <- lift (subscript last_message "content") ;;
    try_except
      (earlier <- lift (iter_init messages) ;;
       context <- lift (build_context earlier []) ;;
       let headers := [("Content-Type", VStr "application/json")] in
       self_valves <- read valves ;;
       let payload :=
         VDict [("projectId", VStr (project_id self_valves));
                ("query", question);
                ("thinkingDepth", VInt (thinking_depth self_valves));
                ("context", match context with
                            | [] => VNone
                            | _ => VStr (join nl context)
                            end)] in
       let query_url := urljoin (server_url self_valves) "/api/query" in
       emit_status event_emitter "info" "Processing query..." false ;;
       response <- requests_post post query_url payload headers ;;
       answer <-
         (if status_code response =? 200 then
            rag_response <- lift (response_json response) ;;
            answer <- lift (subscript rag_response "answer") ;;
            has_log <- lift (contains "log" rag_response) ;;
            if has_log : bool then
              log <- lift (subscript rag_response "log") ;;
              let reasoning := json_dumps log in
              ret (VStr (py_str answer ++ nl ++ nl ++ "```json" ++ nl
                           ++ "Reasoning:" ++ nl ++ reasoning ++ nl ++ "```"))
            else ret answer
          else
            raise (Exception ("Error: " ++ str_of_int (status_code response)
                                ++ " - " ++ text response))) ;;
       body_messages_append (message "assistant" answer) ;;
       emit_status event_emitter "info" "Response generated successfully" true ;;
       ret answer)
      (fun e =>
         let error_msg := "Error during RAG query: " ++ exn_str e in
         emit_status event_emitter "error" error_msg true ;;
         ret (error_result error_msg))
  else
    let error_msg := no_messages in
    emit_status event_emitter "error" error_msg true ;;
    body_messages_append (message "assistant" (VStr error_msg)) ;;
    ret (error_result error_msg).

End Pipe.
End OpenwebuiPipe.

(** ** Notions the properties are stated with *)

Section Notions.
Context {time : Type} {ops : TimeOps time}.
Variable clock : nat -> time.

(** A sink is supplied and notifications are enabled. *)
Definition live (event_emitter : option emitter) (w : world time) : bool :=
  (match event_emitter with Some _ => true | None => false end
   && enable_status_indicator (valves w))%bool.

(** The throttle's test at the next clock reading: the interval has elapsed. *)
Definition elapsed (w : world time) : bool :=
  tge (tsub (clock (clock_reads w)) (last_emit_time w)) (emit_interval (valves w)).

(** The world one call of the notifier leaves behind. *)
Definition notified (event_emitter : option emitter) (level message : string)
  (done : bool) (w : world time) : world time :=
  if (live event_emitter w && (elapsed w || done))%bool then
    {| valves := valves w; last_emit_time := clock (clock_reads w);
       body := body w;
       events := events w ++ [status_event level message done];
       requests := requests w; clock_reads := S (clock_reads w) |}
  else
    {| valves := valves w; last_emit_time := last_emit_time w;
       body := body w; events := events w;
       requests := requests w; clock_reads := S (clock_reads w) |}.

(** The contract of the throttled notifier, in the words of the specification:
    a no-op without a sink or when disabled; otherwise an event goes out
    exactly when the interval has elapsed or [done] is set, and exactly then
    the stored timestamp becomes the current time and the event has the
    documented shape. *)
Definition throttle_contract
  (emit : option emitter -> string -> string -> bool -> M time unit) : Prop :=
  forall event_emitter level message done w,
    let now := clock (clock_reads w) in
    let w' := snd (emit event_emitter level message done w) in
    let event :=
      VDict [("type", VStr "status");
             ("data", VDict [("status", VStr (if done then "complete"
                                              else "in_progress"));
                             ("level", VStr level);
                             ("description", VStr message);
                             ("done", VBool done)])] in
    fst (emit event_emitter level message done w) = Return tt
    /\ ((enable_status_indicator (valves w) = false \/ event_emitter = None) ->
        events w' = events w /\ last_emit_time w' = last_emit_time w)
    /\ (enable_status_indicator (valves w) = true -> event_emitter <> None ->
        ((tge (tsub now (last_emit_time w)) (emit_interval (valves w)) = true
          \/ done = true) ->
         events w' = (events w ++ [event])%list /\ last_emit_time w' = now)
        /\ (~ (tge (tsub now (last_emit_time w)) (emit_interval (valves w)) = true
               \/ done = true) ->
            events w' = events w /\ last_emit_time w' = last_emit_time w)).

End Notions.

(** The chat turn of [w] carries the messages [l], the last of which has the
    content [question]. *)
Definition turn {time : Type} (w : world time) (l : list value)
  (question : value) : Prop :=
  dict_get (body w) "messages" = Some (VList l)
  /\ l <> []
  /\ subscript (last l VNone) "content" = Return question.

(** The message list of the chat turn after [extra] was appended to [l]. *)
Definition appended {time : Type} (w : world time) (l extra : list value) : dict :=
  dict_set (body w) "messages" (VList (l ++ extra)%list).

(** Dispatch or interpretation fails: a transport exception, a status other
    than 200, or a body [response.json()] cannot parse. *)
Definition dispatch_failed (o : outcome response) : bool :=
  match o with
  | Raise _ => true
  | Return r =>
      (negb (status_code r =? 200)
       || match response_json r with Raise _ => true | Return _ => false end)%bool
  end.

(** The reply is not one Flavor A interprets: no response, a status other
    than 200, or a body that is not a JSON object. *)
Definition A_failed (o : outcome response) : bool :=
  match o with
  | Raise _ => true
  | Return r =>
      (negb (status_code r =? 200)
       || match response_json r with
          | Return (VDict _) => false
          | _ => true
          end)%bool
  end.

(** The reply is not one Flavor B interprets: no response, a status other
    than 200, or a body that is not a JSON object with an [answer]. *)
Definition B_failed (o : outcome response) : bool :=
  match o with
  | Raise _ => true
  | Return r =>
      (negb (status_code r =? 200)
       || match response_json r with
          | Return v =>
              match subscript v "answer" with
              | Return _ => false
              | Raise _ => true
              end
          | Raise _ => true
          end)%bool
  end.

(** [m[k]] of a message that has the key, [None] otherwise. *)
Definition field (m : value) (k : string) : value :=
  match subscript m k with
  | Return v => v
  | Raise _ => VNone
  end.

(** A message has a role and a content. *)
Definition well_formed (m : value) : bool :=
  match subscript m "role", subscript m "content" with
  | Return _, Return _ => true
  | _, _ => false
  end.

(** The line ["role: content"] of a message. *)
Definition line (m : value) : string :=
  py_str (field m "role") ++ ": " ++ py_str (field m "content").

(** The context string in the words of the specification's data model: all
    messages except the last, one line each, joined by newlines; null when
    there is no earlier message. *)
Definition claimed_context (l : list value) : value :=
  match removelast l with
  | [] => VNone
  | prior => VStr (join nl (map line prior))
  end.

(** The role of a message is "assistant" or "user". *)
Definition in_dialogue (m : value) : bool :=
  (is_str "assistant" (field m "role") || is_str "user" (field m "role"))%bool.

(** The context string as step 3 of the specification words it: only the
    earlier messages of the user and the assistant. *)
Definition dialogue_context (l : list value) : value :=
  match filter in_dialogue (removelast l) with
  | [] => VNone
  | selected => VStr (join nl (map line selected))
  end.

(** Flavor A's system message for the log of a reply: one, when the reply
    has a log that is non-empty, none otherwise. *)
Definition thinking_messages (d : dict) : list value :=
  match dict_get d "log" with
  | Some log =>
      if truthy log
      then [message "system" (VStr ("Thinking process:" ++ nl ++ py_str log))]
      else []
  | None => []
  end.

(** Concrete data for the examples: integer clock readings, and the state
    of a fresh [Pipe()], that is the defaults of [Valves] and
    [last_emit_time = 0]. *)
Definition Ztime : TimeOps Z := {| tsub := Z.sub; tge := Z.geb |}.

Definition valves0 : Valves Z :=
  {| server_url := "http://localhost:3000"; project_id := "default";
     thinking_depth := 2; emit_interval := 2;
     enable_status_indicator := true |}.

Definition world0 (b : dict) : world Z :=
  {| valves := valves0; last_emit_time := 0; body := b; events := [];
     requests := []; clock_reads := 0%nat |}.

Definition clock0 (n : nat) : Z := 100 + Z.of_nat n.

Definition sink0 : option emitter := Some {| closure := None |}.

Definition service (status : Z) (txt : string) (j : outcome value)
  : request -> outcome response :=
  fun _ => Return {| status_code := status; text := txt; response_json := j |}.

(** What [urljoin] gives for a base address without a path. *)
Definition urljoin0 (base path : string) : string := base ++ path.

Definition ask (q : string) : dict :=
  [("messages", VList [message "user" (VStr q)])].

(** A system message followed by the question. *)
Definition briefing : list value :=
  [message "system" (VStr "S"); message "user" (VStr "Q")].

(** ** Notions for the further properties *)

Definition is_dict (v : value) : bool :=
  match v with
  | VDict _ => true
  | _ => false
  end.

(** [d.get(k)] *)
Definition get_or_none (d : dict) (k : string) : value :=
  match dict_get d k with
  | Some v => v
  | None => VNone
  end.

(** [d.get(k, default)] on a dict. *)
Definition get_or (d : dict) (k : string) (default : value) : value :=
  match dict_get d k with
  | Some v => v
  | None => default
  end.

(** The sink captures no dict: there is no sink, it has no closure, or no
    cell of its closure holds a dict. *)
Definition no_request_info (event_emitter : option emitter) : bool :=
  match event_emitter with
  | None => true
  | Some e =>
      match closure e with
      | None => true
      | Some cells => forallb (fun c => negb (is_dict c)) cells
      end
  end.

(** An event has the shape of a status notification. *)
Definition is_status_event (ev : value) : bool :=
  match ev with
  | VDict [(k1, VStr t);
           (k2, VDict [(k3, VStr s); (k4, VStr _); (k5, VStr _); (k6, VBool d)])] =>
      (String.eqb k1 "type" && String.eqb t "status" && String.eqb k2 "data"
       && String.eqb k3 "status"
       && String.eqb s (if d then "complete" else "in_progress")
       && String.eqb k4 "level" && String.eqb k5 "description"
       && String.eqb k6 "done")%bool
  | _ => false
  end.

(** The [done] flag of a status notification. *)
Definition event_done (ev : value) : bool :=
  match field (field ev "data") "done" with
  | VBool b => b
  | _ => false
  end.

(** The role of a message is "assistant" or "system". *)
Definition from_adapter (m : value) : bool :=
  (is_str "assistant" (field m "role") || is_str "system" (field m "role"))%bool.

(** The request Flavor A sends for the question [q]. *)
Definition request_A {time : Type} (v : Valves time) (q : value) : request :=
  {| url := server_url v ++ "/api/query";
     json := VDict [("projectId", VStr (project_id v));
                    ("query", q);
                    ("thinkingDepth", VInt (thinking_depth v))];
     headers := [("Content-Type", VStr "application/json")] |}.

(** The request Flavor B sends for the question [q] with the context
    value [c]. *)
Definition request_B {time : Type} (urljoin : string -> string -> string)
  (v : Valves time) (q c : value) : request :=
  {| url := urljoin (server_url v) "/api/query";
     json := VDict [("projectId", VStr (project_id v));
                    ("query", q);
                    ("thinkingDepth", VInt (thinking_depth v));
                    ("context", c)];
     headers := [("Content-Type", VStr "application/json")] |}.

(** The text Flavor B makes of an answer and a log. *)
Definition with_reasoning (answer log : value) : string :=
  py_str answer ++ nl ++ nl ++ "```json" ++ nl ++ "Reasoning:" ++ nl
         ++ json_dumps log ++ nl ++ "```".

(** What a run of [pipe] may do to the world: the configuration stays, the
    events grow by at most three status notifications, the requests by at
    most one, nothing is sent while the notifier is off, and a message list
    grows by at most [bound] messages of the adapter's own roles, the other
    keys of the body staying as they are. *)
Definition effects {time : Type} (bound : nat) (em : option emitter)
  (w w' : world time) : Prop :=
  valves w' = valves w
  /\ (exists new,
         events w' = (events w ++ new)%list
         /\ (length new <= 3)%nat
         /\ forallb is_status_event new = true)
  /\ (requests w' = requests w
      \/ exists r, requests w' = (requests w ++ [r])%list)
  /\ (live em w = false ->
      events w' = events w /\ last_emit_time w' = last_emit_time w)
  /\ (forall l,
         dict_get (body w) "messages" = Some (VList l) ->
         exists extra,
           dict_get (body w') "messages" = Some (VList (l ++ extra)%list)
           /\ (length extra <= bound)%nat
           /\ forallb from_adapter extra = true
           /\ forall k, k <> "messages" ->
                        dict_get (body w') k = dict_get (body w) k).

(** * Properties *)

(** ** Dictionaries *)

Lemma dict_get_set (d : dict) k v0 v :
  dict_get d k = Some v0 -> dict_get (dict_set d k v) k = Some v.
Proof.
  induction d as [|[k' x] d IH]; cbn; [discriminate|].
  destruct (String.eqb k' k) eqn:E; cbn; rewrite E; auto.
Qed.

Lemma dict_set_set (d : dict) k v0 v v' :
  dict_get d k = Some v0 -> dict_set (dict_set d k v) k v' = dict_set d k v'.
Proof.
  induction d as [|[k' x] d IH]; cbn; [discriminate|].
  destruct (String.eqb k' k) eqn:E; cbn; rewrite E; [reflexivity|].
  intros H; rewrite IH by exact H; reflexivity.
Qed.

(** The question can only be read off a list: [iter_init] is never asked
    for the items of anything else. *)
Lemma question_only_from_list (messages last_message question : value) :
  index_last messages = Return last_message ->
  subscript last_message "content" = Return question ->
  exists l, messages = VList l /\ l <> [].
Proof.
  destruct messages as [| | |s|l|d]; cbn; try discriminate.
  - destruct s; [discriminate|].
    intros [= <-]; cbn; discriminate.
  - destruct l; [discriminate|].
    intros _ _; eexists; split; [reflexivity|discriminate].
Qed.

(** ** Context building in Flavor B *)

Lemma build_context_dialogue prior acc :
  forallb well_formed prior = true ->
  OpenwebuiPipe.build_context prior acc
  = Return (acc ++ map line (filter in_dialogue prior))%list.
Proof.
  revert acc; induction prior as [|m prior IH]; intros acc Hwf.
  - cbn. rewrite app_nil_r. reflexivity.
  - cbn [forallb] in Hwf. apply andb_true_iff in Hwf as [Hm Hwf].
    unfold well_formed in Hm.
    destruct (subscript m "role") as [r|] eqn:Hr; [|discriminate].
    destruct (subscript m "content") as [c|] eqn:Hc; [|discriminate].
    assert (Hd : in_dialogue m = (is_str "assistant" r || is_str "user" r)%bool)
      by (unfold in_dialogue, field; rewrite Hr; reflexivity).
    assert (Hl : line m = py_str r ++ ": " ++ py_str c)
      by (unfold line, field; rewrite Hr, Hc; reflexivity).
    cbn [OpenwebuiPipe.build_context filter]. rewrite Hr, Hc, Hd.
    destruct (is_str "assistant" r || is_str "user" r)%bool.
    + rewrite IH by exact Hwf. cbn [map]. rewrite Hl, <- app_assoc. reflexivity.
    + apply IH; exact Hwf.
Qed.

Lemma context_value (l : list value) :
  match map line (filter in_dialogue (removelast l)) with
  | [] => VNone
  | _ :: _ => VStr (join nl (map line (filter in_dialogue (removelast l))))
  end
  = dialogue_context l.
Proof. unfold dialogue_context; destruct (filter _ _); reflexivity. Qed.

Section Properties.
Context {time : Type} {ops : TimeOps time}.
Variable clock : nat -> time.
Variable post : request -> outcome response.
Variable urljoin : string -> string -> string.

(** ** The notifier *)

Lemma emit_status_A_run em level msg done w :
  IntelligentRagPipe.emit_status clock em level msg done w
  = (Return tt, notified clock em level msg done w).
Proof.
  unfold IntelligentRagPipe.emit_status, notified, live, elapsed,
    bind, time_time, read, send, set_last_emit_time, ret; cbn.
  destruct em, (enable_status_indicator (valves w)), done; cbn;
    try reflexivity;
    destruct (tge _ _); reflexivity.
Qed.

Lemma emit_status_B_run em level msg done w :
  OpenwebuiPipe.emit_status clock em level msg done w
  = (Return tt, notified clock em level msg done w).
Proof.
  unfold OpenwebuiPipe.emit_status, notified, live, elapsed,
    bind, time_time, read, send, set_last_emit_time, ret; cbn.
  destruct em, (enable_status_indicator (valves w)), done; cbn;
    try reflexivity;
    destruct (tge _ _); reflexivity.
Qed.

Lemma notified_body em level msg done w :
  body (notified clock em level msg done w) = body w.
Proof. unfold notified; destruct (_ && _)%bool; reflexivity. Qed.

Lemma notified_valves em level msg done w :
  valves (notified clock em level msg done w) = valves w.
Proof. unfold notified; destruct (_ && _)%bool; reflexivity. Qed.

Lemma notified_requests em level msg done w :
  requests (notified clock em level msg done w) = requests w.
Proof. unfold notified; destruct (_ && _)%bool; reflexivity. Qed.

Lemma notified_done_events em level msg w :
  live em w = true ->
  events (notified clock em level msg true w)
  = (events w ++ [status_event level msg true])%list.
Proof.
  intros H; unfold notified; rewrite H, orb_true_r; reflexivity.
Qed.

Lemma last_event_done em level msg w :
  live em w = true ->
  exists evs, events (notified clock em level msg true w)
              = (evs ++ [status_event level msg true])%list.
Proof. intros H; rewrite notified_done_events by exact H; eauto. Qed.

Lemma throttle_contract_notified emit :
  (forall em level msg done w,
      emit em level msg done w = (Return tt, notified clock em level msg done w)) ->
  throttle_contract clock emit.
Proof.
  intros Hrun em level msg done w; cbv zeta.
  rewrite Hrun; cbn [fst snd].
  unfold notified, live, elapsed.
  split; [reflexivity|]. split.
  - intros [Hoff | ->].
    + rewrite Hoff, andb_false_r; cbn; auto.
    + cbn; auto.
  - intros Hon Hsink. rewrite Hon.
    destruct em as [e|]; [|congruence]. cbn [andb].
    split.
    + intros Hdue.
      assert (Hb : (tge (tsub (clock (clock_reads w)) (last_emit_time w))
                      (emit_interval (valves w)) || done)%bool = true)
        by (apply orb_true_iff; exact Hdue).
      rewrite Hb; cbn; auto.
    + intros Hnot.
      assert (Hb : (tge (tsub (clock (clock_reads w)) (last_emit_time w))
                      (emit_interval (valves w)) || done)%bool = false).
      { apply not_true_is_false; intros Hb; apply Hnot;
          apply orb_true_iff; exact Hb. }
      rewrite Hb; cbn; auto.
Qed.

(** C7: in both modules [emit_status] does nothing when notifications are
    disabled or no sink is supplied; otherwise it sends an event exactly when
    [now - last_emit_time >= emit_interval] or [done], and exactly then sets
    [last_emit_time] to [now] and sends
    [{type: "status", data: {status, level, description, done}}] with status
    "complete" for a done event and "in_progress" otherwise. *)
Theorem emit_status_throttle :
  throttle_contract clock (IntelligentRagPipe.emit_status clock)
  /\ throttle_contract clock (OpenwebuiPipe.emit_status clock).
Proof.
  split; apply throttle_contract_notified; intros.
  - apply emit_status_A_run.
  - apply emit_status_B_run.
Qed.

(** C10: on the same configuration, stored timestamp, clock reading, sink,
    level, message and done flag, the notifiers of the two modules return the
    same outcome and leave the same world: the same decision to emit or not,
    the same event, the same stored timestamp. *)
Theorem emit_status_same_in_both_modules em level msg done (w : world time) :
  IntelligentRagPipe.emit_status clock em level msg done w
  = OpenwebuiPipe.emit_status clock em level msg done w.
Proof.
  rewrite emit_status_A_run, emit_status_B_run; reflexivity.
Qed.

(** ** Running [pipe] symbolically *)

Ltac run :=
  repeat (cbv beta iota delta [bind ret raise lift read try_except body_get
                                 body_messages_append requests_post set_body];
          rewrite ?emit_status_A_run, ?emit_status_B_run;
          rewrite ?notified_body, ?notified_valves, ?notified_requests;
          cbn [valves body events requests last_emit_time clock_reads
                 status_code text response_json fst snd]).

Ltac enter :=
  unfold IntelligentRagPipe.pipe, IntelligentRagPipe.pipe_branches,
    OpenwebuiPipe.pipe;
  destruct (extract_event_info _) as [chat_id message_id];
  run.

Ltac enter_turn Hm Hq :=
  enter; rewrite Hm;
  match type of Hm with
  | _ = Some (VList ?l) => destruct l; [congruence|]
  end;
  cbn [truthy index_last]; rewrite Hq; run.

Ltac still_live Hlive :=
  unfold live in *; cbn [valves]; rewrite ?notified_valves; exact Hlive.

Ltac finish := eexists; split; [reflexivity|]; run.

Ltac split_case :=
  match goal with
  | |- context [match ?x with _ => _ end] =>
      lazymatch x with
      | context [match _ with _ => _ end] => fail
      | _ => destruct x eqn:?
      end
  end.

Ltac explore Hm :=
  repeat first [progress (run; rewrite ?Hm; rewrite ?(dict_get_set _ _ _ _ Hm);
                          cbn [iter_init method_get subscript contains])
               | split_case].

Ltac error_leaf :=
  intros _; eexists; split; [reflexivity|];
  let Hlive := fresh "Hlive" in
  intros Hlive; apply last_event_done; still_live Hlive.

Ltac refute Hfail :=
  exfalso;
  match goal with
  | Hp : post ?r = _ |- _ => specialize (Hfail r); rewrite Hp in Hfail
  end;
  cbn [A_failed B_failed] in Hfail;
  try match goal with
      | H : method_get ?v _ _ = Return _ |- _ =>
          destruct v; cbn in H; try discriminate H
      end;
  revert Hfail;
  repeat match goal with
         | H : _ = _ |- _ => rewrite H; cbn [negb orb]
         end;
  discriminate.

(** ** The empty message list *)

(** C1: on a body whose "messages" entry is the empty list, Flavor A appends
    the one assistant message "No messages found in the request body" and
    makes no request, but then raises UnboundLocalError for [answer] instead
    of returning an error result; Flavor B appends the same message, makes no
    request and returns [{"error": "No messages found in the request body"}]. *)
Theorem pipe_empty_messages em w :
  dict_get (body w) "messages" = Some (VList []) ->
  (exists w',
      IntelligentRagPipe.pipe clock post em w
      = (Raise (UnboundLocalError "answer"), w')
      /\ body w' = appended w [] [message "assistant"
                                    (VStr "No messages found in the request body")]
      /\ requests w' = requests w)
  /\ (exists w',
         OpenwebuiPipe.pipe clock post urljoin em w
         = (Return (VDict [("error", VStr "No messages found in the request body")]),
            w')
         /\ body w' = appended w [] [message "assistant"
                                       (VStr "No messages found in the request body")]
         /\ requests w' = requests w).
Proof.
  intros Hm; split; enter; rewrite Hm; cbn [truthy]; run; rewrite Hm; run;
    eexists; (split; [reflexivity|]); run; split; reflexivity.
Qed.

(** X17: without a "messages" key [body.get] supplies an empty list, but the
    append that follows subscripts the body itself: both flavors raise. *)
Lemma pipe_without_messages_key em w :
  dict_get (body w) "messages" = None ->
  (exists w',
      IntelligentRagPipe.pipe clock post em w
      = (Raise (KeyError (VStr "messages")), w'))
  /\ (exists w',
         OpenwebuiPipe.pipe clock post urljoin em w
         = (Raise (KeyError (VStr "messages")), w')).
Proof.
  intros Hm; split; enter; rewrite Hm; cbn [truthy]; run; rewrite Hm; run;
    eexists; reflexivity.
Qed.

(** ** A turn with a question *)

(** C3 (amended): when the service answers 500 with the body "server error",
    Flavor B returns exactly
    [{"error": "Error during RAG query: Error: 500 - server error"}], while
    Flavor A returns [{"error": "Error: 500 - server error"}] and puts the
    prefixed text in its notification only; neither appends a message. *)
Theorem pipe_status_500 em w l q resp :
  turn w l q ->
  (forall r, post r = Return resp) ->
  status_code resp = 500 ->
  text resp = "server error" ->
  (exists w',
      IntelligentRagPipe.pipe clock post em w
      = (Return (VDict [("error", VStr "Error: 500 - server error")]), w')
      /\ body w' = body w
      /\ (live em w = true ->
          exists evs,
            events w'
            = (evs ++ [status_event "error"
                         "Error during RAG query: Error: 500 - server error"
                         true])%list))
  /\ (forall context,
         OpenwebuiPipe.build_context (removelast l) [] = Return context ->
         exists w',
           OpenwebuiPipe.pipe clock post urljoin em w
           = (Return (VDict [("error",
                              VStr "Error during RAG query: Error: 500 - server error")]),
              w')
           /\ body w' = body w
           /\ (live em w = true ->
               exists evs,
                 events w'
                 = (evs ++ [status_event "error"
                              "Error during RAG query: Error: 500 - server error"
                              true])%list)).
Proof.
  intros (Hm & Hne & Hq) Hpost Hst Htx. split.
  - enter_turn Hm Hq. rewrite Hpost; run. rewrite Hst, Htx.
    change (500 =? 200) with false; run.
    finish. split; [reflexivity|].
    intros Hlive. apply last_event_done. still_live Hlive.
  - intros context Hctx. enter_turn Hm Hq.
    cbn [iter_init]; run. rewrite Hctx; run.
    rewrite Hpost; run. rewrite Hst, Htx.
    change (500 =? 200) with false; run.
    finish. split; [reflexivity|].
    intros Hlive. apply last_event_done. still_live Hlive.
Qed.

(** C4 (amended): when the service answers 200 with a JSON object that has no
    "answer", Flavor B fails: it returns [{"error": message}], sends the
    terminal error notification and appends nothing, the message being
    "Error during RAG query: 'answer'" once the request was built.  Flavor A
    takes the empty string for the answer: it appends the assistant message
    with empty content (after the log's system message, if any) and returns
    the empty string. *)
Theorem pipe_reply_without_answer em w l q resp d :
  turn w l q ->
  (forall r, post r = Return resp) ->
  status_code resp = 200 ->
  response_json resp = Return (VDict d) ->
  dict_get d "answer" = None ->
  (exists w',
      IntelligentRagPipe.pipe clock post em w = (Return (VStr EmptyString), w')
      /\ body w' = appended w l
                     (thinking_messages d
                        ++ [message "assistant" (VStr EmptyString)]))
  /\ (exists msg w',
         OpenwebuiPipe.pipe clock post urljoin em w
         = (Return (VDict [("error", VStr msg)]), w')
         /\ body w' = body w
         /\ (live em w = true ->
             exists evs,
               events w' = (evs ++ [status_event "error" msg true])%list)
         /\ (forall context,
                OpenwebuiPipe.build_context (removelast l) [] = Return context ->
                msg = "Error during RAG query: 'answer'")).
Proof.
  intros (Hm & Hne & Hq) Hpost Hst Hjson Hans. split.
  - enter_turn Hm Hq. rewrite Hpost; run. rewrite Hst, Hjson.
    change (200 =? 200) with true; run.
    cbn [method_get]. rewrite Hans. unfold thinking_messages. run.
    destruct (dict_get d "log") as [log|]; run.
    + destruct (truthy log); run; rewrite Hm; run.
      * rewrite (dict_get_set _ _ _ _ Hm); run.
        finish. unfold appended.
        rewrite (dict_set_set _ _ _ _ _ Hm), <- app_assoc. reflexivity.
      * finish. reflexivity.
    + cbn [truthy String.eqb negb]. run. rewrite Hm; run.
      finish. reflexivity.
  - enter_turn Hm Hq. cbn [iter_init]; run.
    destruct (OpenwebuiPipe.build_context _ _) as [context|e] eqn:Hctx; run.
    + rewrite Hpost; run. rewrite Hst, Hjson.
      change (200 =? 200) with true; run.
      cbn [subscript]. rewrite Hans. run.
      eexists. finish. split; [reflexivity|]. split.
      * intros Hlive. apply last_event_done. still_live Hlive.
      * intros; reflexivity.
    + eexists. finish. split; [reflexivity|]. split.
      * intros Hlive. apply last_event_done. still_live Hlive.
      * intros; discriminate.
Qed.

(** C5 (amended): after a 200 reply with an answer, and with a sink supplied
    and notifications enabled, the last event sent before returning is the
    terminal informational one; its message is "Complete" in Flavor A and
    "Response generated successfully" in Flavor B. *)
Theorem pipe_success_final_notification em w l q resp d answer :
  turn w l q ->
  (forall r, post r = Return resp) ->
  status_code resp = 200 ->
  response_json resp = Return (VDict d) ->
  dict_get d "answer" = Some answer ->
  live em w = true ->
  (exists w' evs,
      IntelligentRagPipe.pipe clock post em w = (Return answer, w')
      /\ events w' = (evs ++ [status_event "info" "Complete" true])%list)
  /\ (forall context,
         OpenwebuiPipe.build_context (removelast l) [] = Return context ->
         exists v w' evs,
           OpenwebuiPipe.pipe clock post urljoin em w = (Return v, w')
           /\ events w'
              = (evs ++ [status_event "info" "Response generated successfully"
                           true])%list).
Proof.
  intros (Hm & Hne & Hq) Hpost Hst Hjson Hans Hlive. split.
  - enter_turn Hm Hq. rewrite Hpost; run. rewrite Hst, Hjson.
    change (200 =? 200) with true; run.
    cbn [method_get]. rewrite Hans. run.
    destruct (dict_get d "log") as [log|]; run.
    + destruct (truthy log); run; rewrite Hm; run.
      * rewrite (dict_get_set _ _ _ _ Hm); run.
        do 2 eexists; split; [reflexivity|].
        rewrite notified_done_events by still_live Hlive. reflexivity.
      * do 2 eexists; split; [reflexivity|].
        rewrite notified_done_events by still_live Hlive. reflexivity.
    + cbn [truthy String.eqb negb]. run. rewrite Hm; run.
      do 2 eexists; split; [reflexivity|].
      rewrite notified_done_events by still_live Hlive. reflexivity.
  - intros context Hctx. enter_turn Hm Hq. cbn [iter_init]; run.
    rewrite Hctx; run. rewrite Hpost; run. rewrite Hst, Hjson.
    change (200 =? 200) with true; run.
    cbn [subscript contains]. rewrite Hans. run.
    destruct (dict_get d "log") as [log|]; run; rewrite Hm; run;
      (do 3 eexists; split; [reflexivity|]);
      rewrite notified_done_events by still_live Hlive; reflexivity.
Qed.

(** C8: on a 200 reply whose "answer" is the string X and whose "log" is the
    (non-empty) string Y, Flavor A appends the system message
    "Thinking process:" + newline + Y, then the assistant message X, and
    returns X; Flavor B appends the single assistant message made of X, an
    empty line, and the fenced "json" block holding "Reasoning:" and the
    JSON-serialized Y, and returns that same text. *)
Theorem pipe_answer_and_log em w l q resp d X Y :
  turn w l q ->
  (forall r, post r = Return resp) ->
  status_code resp = 200 ->
  response_json resp = Return (VDict d) ->
  dict_get d "answer" = Some (VStr X) ->
  dict_get d "log" = Some (VStr Y) ->
  Y <> EmptyString ->
  (exists w',
      IntelligentRagPipe.pipe clock post em w = (Return (VStr X), w')
      /\ body w'
         = appended w l
             [message "system" (VStr ("Thinking process:" ++ nl ++ Y));
              message "assistant" (VStr X)])
  /\ (forall context,
         OpenwebuiPipe.build_context (removelast l) [] = Return context ->
         let combined :=
           X ++ nl ++ nl ++ "```json" ++ nl ++ "Reasoning:" ++ nl
             ++ json_dumps (VStr Y) ++ nl ++ "```" in
         exists w',
           OpenwebuiPipe.pipe clock post urljoin em w = (Return (VStr combined), w')
           /\ body w' = appended w l [message "assistant" (VStr combined)]).
Proof.
  intros (Hm & Hne & Hq) Hpost Hst Hjson Hans Hlog HY. split.
  - enter_turn Hm Hq. rewrite Hpost; run. rewrite Hst, Hjson.
    change (200 =? 200) with true; run.
    cbn [method_get]. rewrite Hans, Hlog. run.
    assert (Ht : truthy (VStr Y) = true).
    { cbn [truthy]. destruct Y; [congruence|reflexivity]. }
    rewrite Ht; run. rewrite Hm; run.
    rewrite (dict_get_set _ _ _ _ Hm); run.
    finish. unfold appended.
    rewrite (dict_set_set _ _ _ _ _ Hm), <- app_assoc. reflexivity.
  - intros context Hctx combined. enter_turn Hm Hq. cbn [iter_init]; run.
    rewrite Hctx; run. rewrite Hpost; run. rewrite Hst, Hjson.
    change (200 =? 200) with true; run.
    cbn [subscript contains]. rewrite Hans, Hlog. run. rewrite Hm; run.
    finish. reflexivity.
Qed.

(** C9: when the turn has a question and the dispatch fails (transport
    exception, status other than 200, or unparsable body), both flavors
    return an error result and leave the body, hence its message list, as
    it was. *)
Theorem pipe_failure_keeps_messages em w l q :
  turn w l q ->
  (forall r, dispatch_failed (post r) = true) ->
  (exists msg w',
      IntelligentRagPipe.pipe clock post em w = (Return (error_result msg), w')
      /\ body w' = body w)
  /\ (exists msg w',
         OpenwebuiPipe.pipe clock post urljoin em w
         = (Return (error_result msg), w')
         /\ body w' = body w).
Proof.
  intros (Hm & Hne & Hq) Hfail. split.
  - enter_turn Hm Hq.
    match goal with
    | |- context [post ?r] => specialize (Hfail r); destruct (post r) as [resp|e]
    end; run.
    + cbn [dispatch_failed] in Hfail.
      destruct (status_code resp =? 200); run.
      * destruct (response_json resp); [discriminate|]. run.
        eexists; finish; reflexivity.
      * eexists; finish; reflexivity.
    + eexists; finish; reflexivity.
  - enter_turn Hm Hq. cbn [iter_init]; run.
    destruct (OpenwebuiPipe.build_context _ _) as [context|e]; run.
    + match goal with
      | |- context [post ?r] => specialize (Hfail r); destruct (post r) as [resp|e]
      end; run.
      * cbn [dispatch_failed] in Hfail.
        destruct (status_code resp =? 200); run.
        -- destruct (response_json resp); [discriminate|]. run.
           eexists; finish; reflexivity.
        -- eexists; finish; reflexivity.
      * eexists; finish; reflexivity.
    + eexists; finish; reflexivity.
Qed.

(** C6 (amended): in Flavor B, when every earlier message has a role and a
    content, one request goes out; its "query" is the content of the last
    message and its "context" is the newline-joined "role: content" lines of
    the earlier messages whose role is "user" or "assistant", or null when
    there is no such message, in particular when there is no earlier
    message at all. *)
Theorem pipe_B_context em w l q :
  turn w l q ->
  forallb well_formed (removelast l) = true ->
  exists o w' r,
    OpenwebuiPipe.pipe clock post urljoin em w = (o, w')
    /\ requests w' = (requests w ++ [r])%list
    /\ subscript (json r) "query" = Return q
    /\ subscript (json r) "context" = Return (dialogue_context l)
    /\ (removelast l = [] -> subscript (json r) "context" = Return VNone).
Proof.
  intros (Hm & Hne & Hq) Hwf.
  assert (Hnone : removelast l = [] -> dialogue_context l = VNone).
  { unfold dialogue_context; intros ->; reflexivity. }
  enter_turn Hm Hq. cbn [iter_init]; run.
  rewrite build_context_dialogue by exact Hwf. run.
  cbn [app]. rewrite context_value.
  explore Hm.
  all: do 3 eexists; split; [reflexivity|]; run;
    split; [reflexivity|]; cbn [json]; split; [reflexivity|];
    split; [reflexivity|]; intros H; rewrite (Hnone H); reflexivity.
Qed.

(** C2 (amended): on a body whose "messages" entry is a list that is empty
    or ends in a message with a "content", Flavor B always returns, and so
    does Flavor A when the list is not empty.  When the list is empty
    (Flavor B) or the reply is not one the flavor interprets, the value
    returned is [{"error": message}] and, with a sink supplied and
    notifications enabled, the last event sent is the terminal error
    notification: with that message in Flavor B, with
    "Error during RAG query: " before it in Flavor A. *)
Theorem pipe_returns_on_well_formed_turn em w l :
  dict_get (body w) "messages" = Some (VList l) ->
  (l = [] \/ exists q, subscript (last l VNone) "content" = Return q) ->
  (exists v w',
      OpenwebuiPipe.pipe clock post urljoin em w = (Return v, w')
      /\ ((l = [] \/ forall r, B_failed (post r) = true) ->
          exists msg,
            v = VDict [("error", VStr msg)]
            /\ (live em w = true ->
                exists evs,
                  events w' = (evs ++ [status_event "error" msg true])%list)))
  /\ (l <> [] ->
      exists v w',
        IntelligentRagPipe.pipe clock post em w = (Return v, w')
        /\ ((forall r, A_failed (post r) = true) ->
            exists msg,
              v = VDict [("error", VStr msg)]
              /\ (live em w = true ->
                  exists evs,
                    events w'
                    = (evs ++ [status_event "error"
                                 ("Error during RAG query: " ++ msg) true])%list))).
Proof.
  intros Hm Hlast. destruct l as [|m l].
  - split; [|congruence].
    enter. rewrite Hm; cbn [truthy]; run. rewrite Hm; run.
    do 2 eexists; split; [reflexivity|]. error_leaf.
  - destruct Hlast as [|[q Hq]]; [congruence|].
    split; [|intros _].
    + enter. rewrite Hm. cbn [truthy index_last]. rewrite Hq.
      explore Hm.
      all: do 2 eexists; (split; [reflexivity|]).
      all: first [ error_leaf
                 | intros [|Hfail]; [congruence | refute Hfail] ].
    + enter. rewrite Hm. cbn [truthy index_last]. rewrite Hq.
      explore Hm.
      all: do 2 eexists; (split; [reflexivity|]).
      all: first [ error_leaf | intros Hfail; refute Hfail ].
Qed.


(** ** Further properties *)

(** ** The captured request information *)

Lemma first_request_info_skips pre rest :
  forallb (fun c => negb (is_dict c)) pre = true ->
  first_request_info (pre ++ rest)%list = first_request_info rest.
Proof.
  induction pre as [|c pre IH]; cbn; [reflexivity|].
  intros H; apply andb_true_iff in H as [Hc H].
  destruct c; try discriminate; apply IH; exact H.
Qed.

(** X1: when the sink's closure holds a dict, [extract_event_info] returns
    the "chat_id" and "message_id" of the first such cell, [None] standing
    for a key the dict lacks; the cells before it that hold other values are
    passed over, the cells after it are not looked at. *)
Theorem extract_event_info_first_dict pre d rest :
  forallb (fun c => negb (is_dict c)) pre = true ->
  extract_event_info (Some {| closure := Some (pre ++ VDict d :: rest)%list |})
  = (get_or_none d "chat_id", get_or_none d "message_id").
Proof.
  intros H. unfold extract_event_info; cbn [closure].
  pose proof (first_request_info_skips pre (VDict d :: rest) H) as E.
  destruct (pre ++ VDict d :: rest)%list eqn:Hl.
  - destruct pre; discriminate.
  - rewrite E. reflexivity.
Qed.

(** X2: without a sink, without a closure, or when no cell of the closure
    holds a dict, [extract_event_info] returns [(None, None)]. *)
Theorem extract_event_info_no_dict em :
  no_request_info em = true -> extract_event_info em = (VNone, VNone).
Proof.
  destruct em as [[[cells|]]|]; cbn; try reflexivity.
  intros H. destruct cells as [|c cells]; [reflexivity|].
  rewrite <- (app_nil_r (c :: cells)).
  rewrite (first_request_info_skips _ [] H). reflexivity.
Qed.

(** ** More on dictionaries, events and the context loop *)

Lemma dict_get_set_other (d : dict) k k' v :
  k <> k' -> dict_get (dict_set d k' v) k = dict_get d k.
Proof.
  intros Hk. induction d as [|[k0 x] d IH]; cbn.
  - destruct (String.eqb_spec k' k); [congruence|reflexivity].
  - destruct (String.eqb_spec k0 k'); cbn.
    + destruct (String.eqb_spec k0 k); [congruence|reflexivity].
    + destruct (String.eqb_spec k0 k); [reflexivity|exact IH].
Qed.

Lemma is_status_event_status_event level msg done :
  is_status_event (status_event level msg done) = true.
Proof. destruct done; reflexivity. Qed.


(** The context loop stops at the first earlier message it cannot read: one
    without a role, or one of the user or the assistant without a content. *)
Lemma build_context_stops pre m rest acc e :
  forallb well_formed pre = true ->
  (subscript m "role" = Raise e
   \/ (in_dialogue m = true /\ subscript m "content" = Raise e)) ->
  OpenwebuiPipe.build_context (pre ++ m :: rest)%list acc = Raise e.
Proof.
  revert acc; induction pre as [|p pre IH]; intros acc Hwf Hbad.
  - cbn [app OpenwebuiPipe.build_context].
    destruct Hbad as [Hr | [Hd Hc]].
    + rewrite Hr. reflexivity.
    + unfold in_dialogue, field in Hd.
      destruct (subscript m "role") as [r|]; [|discriminate].
      rewrite Hd, Hc. reflexivity.
  - cbn [forallb] in Hwf. apply andb_true_iff in Hwf as [Hp Hwf].
    unfold well_formed in Hp.
    cbn [app OpenwebuiPipe.build_context].
    destruct (subscript p "role") as [r|]; [|discriminate].
    destruct (subscript p "content") as [c|]; [|discriminate].
    destruct (is_str "assistant" r || is_str "user" r)%bool;
      apply IH; assumption.
Qed.

Lemma notified_any_sink e1 e2 level msg done (w : world time) :
  notified clock (Some e1) level msg done w
  = notified clock (Some e2) level msg done w.
Proof. reflexivity. Qed.

(** X3: what the sink has captured makes no difference: two sinks give the
    same outcome and the same world, in both flavors. *)
Theorem pipe_ignores_closure e1 e2 (w : world time) :
  IntelligentRagPipe.pipe clock post (Some e1) w
  = IntelligentRagPipe.pipe clock post (Some e2) w
  /\ OpenwebuiPipe.pipe clock post urljoin (Some e1) w
     = OpenwebuiPipe.pipe clock post urljoin (Some e2) w.
Proof.
  split;
    unfold IntelligentRagPipe.pipe, IntelligentRagPipe.pipe_branches,
      OpenwebuiPipe.pipe;
    destruct (extract_event_info (Some e1)), (extract_event_info (Some e2));
    repeat first [ progress (run; rewrite ?(notified_any_sink e1 e2);
                             cbn [iter_init method_get subscript contains])
                 | reflexivity
                 | split_case ].
Qed.


Lemma notified_progress em level msg (w : world time) :
  exists new,
    events (notified clock em level msg false w) = (events w ++ new)%list
    /\ (length new <= 1)%nat
    /\ forallb (fun ev => negb (event_done ev)) new = true.
Proof.
  unfold notified. destruct (_ && _)%bool; cbn [events].
  - exists [status_event level msg false]. repeat split. cbn; lia.
  - exists []. rewrite app_nil_r. repeat split. cbn; lia.
Qed.

Ltac open_progress :=
  repeat (cbn [events];
          match goal with
          | |- context [events (notified clock ?em ?l ?m false ?w)] =>
              let n := fresh "n" in
              let E := fresh "E" in
              destruct (notified_progress em l m w) as (n & E & ? & ?);
              rewrite E; clear E
          end).

Ltac one_terminal Hlive :=
  intros [= <- <-];
  rewrite notified_done_events by still_live Hlive;
  open_progress; rewrite <- ?app_assoc;
  first [ do 2 eexists; split; [reflexivity|]
        | match goal with
          | |- context [(_ ++ ?b ++ ?c ++ [?t])%list] =>
              rewrite (app_assoc b c [t])
          end;
          do 2 eexists; split; [reflexivity|]
        | exists []; eexists; split; [reflexivity|] ];
  split; [rewrite ?length_app; cbn [length]; lia|];
  split; [ rewrite ?forallb_app;
           repeat match goal with
                  | H : forallb _ _ = true |- _ => rewrite H
                  end; reflexivity
         | reflexivity ].

(** X7: on a turn with a question and a live notifier, every run sends
    exactly one terminal notification, and sends it last; before it come at
    most one (Flavor A) or two (Flavor B) progress notifications. *)
Theorem pipe_one_terminal_event em (w : world time) l q :
  turn w l q ->
  live em w = true ->
  (forall o w',
      IntelligentRagPipe.pipe clock post em w = (o, w') ->
      exists progress terminal,
        events w' = (events w ++ progress ++ [terminal])%list
        /\ (length progress <= 1)%nat
        /\ forallb (fun ev => negb (event_done ev)) progress = true
        /\ event_done terminal = true)
  /\ (forall o w',
         OpenwebuiPipe.pipe clock post urljoin em w = (o, w') ->
         exists progress terminal,
           events w' = (events w ++ progress ++ [terminal])%list
           /\ (length progress <= 2)%nat
           /\ forallb (fun ev => negb (event_done ev)) progress = true
           /\ event_done terminal = true).
Proof.
  intros (Hm & Hne & Hq) Hlive; split; intros o w';
    enter_turn Hm Hq; explore Hm; one_terminal Hlive.
Qed.

(** X4: two notifications in a row, the first not terminal and due, the
    second read off the clock before the interval has passed since the
    first: the first is sent and stamps the time; the second is sent, and
    stamps the time, only if it is terminal. *)
Theorem emit_status_twice em level1 msg1 level2 msg2 (done2 : bool)
  (w : world time) :
  live em w = true ->
  elapsed clock w = true ->
  tge (tsub (clock (S (clock_reads w))) (clock (clock_reads w)))
      (emit_interval (valves w)) = false ->
  let sent :=
    (events w ++ status_event level1 msg1 false
       :: (if done2 then [status_event level2 msg2 true] else []))%list in
  let stamp :=
    if done2 then clock (S (clock_reads w)) else clock (clock_reads w) in
  (exists w',
      bind (IntelligentRagPipe.emit_status clock em level1 msg1 false)
           (fun _ => IntelligentRagPipe.emit_status clock em level2 msg2 done2) w
      = (Return tt, w')
      /\ events w' = sent /\ last_emit_time w' = stamp)
  /\ (exists w',
         bind (OpenwebuiPipe.emit_status clock em level1 msg1 false)
              (fun _ => OpenwebuiPipe.emit_status clock em level2 msg2 done2) w
         = (Return tt, w')
         /\ events w' = sent /\ last_emit_time w' = stamp).
Proof.
  intros Hlive Hdue Hsoon sent stamp. subst sent stamp.
  assert (H1 : notified clock em level1 msg1 false w
               = {| valves := valves w; last_emit_time := clock (clock_reads w);
                    body := body w;
                    events := (events w ++ [status_event level1 msg1 false])%list;
                    requests := requests w;
                    clock_reads := S (clock_reads w) |}).
  { unfold notified. rewrite Hlive, Hdue. reflexivity. }
  split; unfold bind;
    rewrite ?emit_status_A_run, ?emit_status_B_run; rewrite H1;
    rewrite ?emit_status_A_run, ?emit_status_B_run;
    (eexists; split; [reflexivity|]);
    unfold notified, live, elapsed in *; cbn [valves last_emit_time clock_reads];
    rewrite Hlive, Hsoon; destruct done2; cbn;
    rewrite <- ?app_assoc; split; reflexivity.
Qed.


Lemma notified_events em level msg done (w : world time) :
  exists new,
    events (notified clock em level msg done w) = (events w ++ new)%list
    /\ (length new <= 1)%nat
    /\ forallb is_status_event new = true.
Proof.
  unfold notified. destruct (_ && _)%bool; cbn [events].
  - exists [status_event level msg done]. repeat split; [cbn; lia|].
    cbn [forallb]. rewrite is_status_event_status_event. reflexivity.
  - exists []. rewrite app_nil_r. repeat split. cbn; lia.
Qed.

Lemma notified_off em level msg done (w : world time) :
  live em w = false ->
  notified clock em level msg done w
  = {| valves := valves w; last_emit_time := last_emit_time w;
       body := body w; events := events w;
       requests := requests w; clock_reads := S (clock_reads w) |}.
Proof. intros H; unfold notified; rewrite H; reflexivity. Qed.

Ltac open_events :=
  repeat (cbn [events];
          match goal with
          | |- context [events (notified clock ?em ?l ?m ?d ?w)] =>
              let n := fresh "n" in
              let E := fresh "E" in
              destruct (notified_events em l m d w) as (n & E & ? & ?);
              rewrite E; clear E
          end).

Ltac close_events :=
  first [ rewrite <- ?app_assoc; eexists; split; [reflexivity|];
          split; [ rewrite ?length_app; cbn [length]; lia
                 | rewrite ?forallb_app;
                   repeat match goal with
                          | H : forallb _ _ = true |- _ => rewrite H
                          end;
                   reflexivity ]
        | exists []; rewrite app_nil_r; repeat split; cbn; lia ].

Ltac off Hoff :=
  rewrite ?notified_off
    by (unfold live in *; cbn [valves]; rewrite ?notified_valves; exact Hoff).

Ltac grown Hm :=
  run; rewrite ?(dict_set_set _ _ _ _ _ Hm), <- ?app_assoc;
  first [ exists []; rewrite app_nil_r;
          split; [exact Hm|]; split; [cbn; lia|]; split; reflexivity
        | eexists; split; [apply (dict_get_set _ _ _ _ Hm)|];
          split; [cbn; lia|]; split; [reflexivity|];
          intros; apply dict_get_set_other; assumption ].

Ltac effects_leaf Hm :=
  intros [= <- <-]; unfold effects;
  split; [run; reflexivity|];
  split; [open_events; close_events|];
  split; [run; eauto|];
  split; [ let Hoff := fresh "Hoff" in
           intros Hoff; off Hoff; split; reflexivity |];
  let l := fresh "l" in
  let Hl := fresh "Hl" in
  intros l Hl; rewrite Hm in Hl;
  first [ discriminate Hl
        | injection Hl as <-; grown Hm ].

Lemma pipe_A_effects em (w : world time) o w' :
  IntelligentRagPipe.pipe clock post em w = (o, w') -> effects 2 em w w'.
Proof.
  destruct (dict_get (body w) "messages") as [v|] eqn:Hm;
    [destruct v|]; enter; explore Hm; effects_leaf Hm.
Qed.

Lemma pipe_B_effects em (w : world time) o w' :
  OpenwebuiPipe.pipe clock post urljoin em w = (o, w') -> effects 1 em w w'.
Proof.
  destruct (dict_get (body w) "messages") as [v|] eqn:Hm;
    [destruct v|]; enter; explore Hm; effects_leaf Hm.
Qed.

(** X5: with notifications disabled or without a sink, no run of [pipe]
    sends anything or touches the stored timestamp, whatever the body and
    the service. *)
Theorem pipe_silent_when_off em (w : world time) :
  live em w = false ->
  (forall o w',
      IntelligentRagPipe.pipe clock post em w = (o, w') ->
      events w' = events w /\ last_emit_time w' = last_emit_time w)
  /\ (forall o w',
         OpenwebuiPipe.pipe clock post urljoin em w = (o, w') ->
         events w' = events w /\ last_emit_time w' = last_emit_time w).
Proof.
  intros Hoff; split; intros o w' H.
  - destruct (pipe_A_effects _ _ _ _ H) as (_ & _ & _ & Hsilent & _).
    exact (Hsilent Hoff).
  - destruct (pipe_B_effects _ _ _ _ H) as (_ & _ & _ & Hsilent & _).
    exact (Hsilent Hoff).
Qed.

(** X6: every run of [pipe] only adds to the events sent, at most three of
    them, each of the shape of a status notification. *)
Theorem pipe_sends_status_events em (w : world time) :
  (forall o w',
      IntelligentRagPipe.pipe clock post em w = (o, w') ->
      exists new,
        events w' = (events w ++ new)%list
        /\ (length new <= 3)%nat
        /\ forallb is_status_event new = true)
  /\ (forall o w',
         OpenwebuiPipe.pipe clock post urljoin em w = (o, w') ->
         exists new,
           events w' = (events w ++ new)%list
           /\ (length new <= 3)%nat
           /\ forallb is_status_event new = true).
Proof.
  split; intros o w' H.
  - destruct (pipe_A_effects _ _ _ _ H) as (_ & Hev & _). exact Hev.
  - destruct (pipe_B_effects _ _ _ _ H) as (_ & Hev & _). exact Hev.
Qed.

(** X8: no run of [pipe] changes the configuration, and every run makes at
    most one request, whatever the body and the service. *)
Theorem pipe_keeps_configuration em (w : world time) :
  (forall o w',
      IntelligentRagPipe.pipe clock post em w = (o, w') ->
      valves w' = valves w
      /\ (requests w' = requests w
          \/ exists r, requests w' = (requests w ++ [r])%list))
  /\ (forall o w',
         OpenwebuiPipe.pipe clock post urljoin em w = (o, w') ->
         valves w' = valves w
         /\ (requests w' = requests w
             \/ exists r, requests w' = (requests w ++ [r])%list)).
Proof.
  split; intros o w' H.
  - destruct (pipe_A_effects _ _ _ _ H) as (Hv & _ & Hr & _). split; assumption.
  - destruct (pipe_B_effects _ _ _ _ H) as (Hv & _ & Hr & _). split; assumption.
Qed.

(** X9: a run of [pipe] only appends to the message list: the messages it
    found stay in place, at most two (Flavor A) or one (Flavor B) follow,
    each with the role "assistant" or "system", and the other keys of the
    body keep their values. *)
Theorem pipe_appends_only em (w : world time) l :
  dict_get (body w) "messages" = Some (VList l) ->
  (forall o w',
      IntelligentRagPipe.pipe clock post em w = (o, w') ->
      exists extra,
        dict_get (body w') "messages" = Some (VList (l ++ extra)%list)
        /\ (length extra <= 2)%nat
        /\ forallb from_adapter extra = true
        /\ forall k, k <> "messages" ->
                     dict_get (body w') k = dict_get (body w) k)
  /\ (forall o w',
         OpenwebuiPipe.pipe clock post urljoin em w = (o, w') ->
         exists extra,
           dict_get (body w') "messages" = Some (VList (l ++ extra)%list)
           /\ (length extra <= 1)%nat
           /\ forallb from_adapter extra = true
           /\ forall k, k <> "messages" ->
                        dict_get (body w') k = dict_get (body w) k).
Proof.
  intros Hm; split; intros o w' H.
  - destruct (pipe_A_effects _ _ _ _ H) as (_ & _ & _ & _ & Hmsg).
    exact (Hmsg l Hm).
  - destruct (pipe_B_effects _ _ _ _ H) as (_ & _ & _ & _ & Hmsg).
    exact (Hmsg l Hm).
Qed.


(** X10: on a turn with a question Flavor A makes exactly one request,
    whatever the service then does: a POST to the server address followed by
    "/api/query", with the JSON content type and the payload of project id,
    the question as it stands in the last message, and thinking depth. *)
Theorem pipe_A_request em (w : world time) l q :
  turn w l q ->
  forall o w',
    IntelligentRagPipe.pipe clock post em w = (o, w') ->
    requests w' = (requests w ++ [request_A (valves w) q])%list.
Proof.
  intros (Hm & Hne & Hq) o w'. enter_turn Hm Hq. unfold request_A.
  explore Hm; intros [= <- <-]; run; reflexivity.
Qed.

(** X11: on a turn with a question whose earlier messages are well formed,
    Flavor B makes exactly one request, whatever the service then does: a
    POST to [urljoin] of the server address and "/api/query", with the JSON
    content type and the payload of project id, question, thinking depth
    and the context of the user's and the assistant's earlier messages. *)
Theorem pipe_B_request em (w : world time) l q :
  turn w l q ->
  forallb well_formed (removelast l) = true ->
  forall o w',
    OpenwebuiPipe.pipe clock post urljoin em w = (o, w') ->
    requests w'
    = (requests w ++ [request_B urljoin (valves w) q (dialogue_context l)])%list.
Proof.
  intros (Hm & Hne & Hq) Hwf o w'. enter_turn Hm Hq. cbn [iter_init]; run.
  rewrite build_context_dialogue by exact Hwf. run.
  cbn [app]. rewrite context_value. unfold request_B.
  explore Hm; intros [= <- <-]; run; reflexivity.
Qed.

(** X16: when an earlier message cannot be read (it has no role, or it is
    the user's or the assistant's and has no content), Flavor B returns the
    error result naming the exception, makes no request and leaves the body
    as it was. *)
Theorem pipe_B_malformed_earlier_message em (w : world time) l q pre m rest e :
  turn w l q ->
  removelast l = (pre ++ m :: rest)%list ->
  forallb well_formed pre = true ->
  (subscript m "role" = Raise e
   \/ (in_dialogue m = true /\ subscript m "content" = Raise e)) ->
  exists w',
    OpenwebuiPipe.pipe clock post urljoin em w
    = (Return (VDict [("error", VStr ("Error during RAG query: " ++ exn_str e))]),
       w')
    /\ requests w' = requests w
    /\ body w' = body w.
Proof.
  intros (Hm & Hne & Hq) Hl Hwf Hbad.
  pose proof (build_context_stops pre m rest [] e Hwf Hbad) as Hctx.
  rewrite <- Hl in Hctx.
  enter_turn Hm Hq. cbn [iter_init]; run. rewrite Hctx; run.
  finish. split; reflexivity.
Qed.

(** X14: for any status other than 200 the failure text is
    "Error: <status> - <body text>"; Flavor A returns it as the error,
    Flavor B returns it behind "Error during RAG query: "; the body is left
    as it was. *)
Theorem pipe_status_not_200 em (w : world time) l q resp :
  turn w l q ->
  (forall r, post r = Return resp) ->
  (status_code resp =? 200) = false ->
  let failure :=
    "Error: " ++ str_of_int (status_code resp) ++ " - " ++ text resp in
  (exists w',
      IntelligentRagPipe.pipe clock post em w
      = (Return (VDict [("error", VStr failure)]), w')
      /\ body w' = body w)
  /\ (forall context,
         OpenwebuiPipe.build_context (removelast l) [] = Return context ->
         exists w',
           OpenwebuiPipe.pipe clock post urljoin em w
           = (Return (VDict [("error",
                              VStr ("Error during RAG query: " ++ failure))]), w')
           /\ body w' = body w).
Proof.
  intros (Hm & Hne & Hq) Hpost Hst failure. split.
  - enter_turn Hm Hq. rewrite Hpost; run. rewrite Hst; run.
    finish. reflexivity.
  - intros context Hctx. enter_turn Hm Hq.
    cbn [iter_init]; run. rewrite Hctx; run.
    rewrite Hpost; run. rewrite Hst; run.
    finish. reflexivity.
Qed.

(** X15: when [requests.post] raises, or the reply has status 200 and
    [response.json()] raises, the text of that exception is the error Flavor
    A returns, and Flavor B returns it behind "Error during RAG query: ";
    both leave the body as it was and, with a live notifier, end on the
    error notification with the prefixed text. *)
Theorem pipe_exception_text em (w : world time) l q e :
  turn w l q ->
  ((forall r, post r = Raise e)
   \/ exists resp,
       (forall r, post r = Return resp)
       /\ status_code resp = 200
       /\ response_json resp = Raise e) ->
  (exists w',
      IntelligentRagPipe.pipe clock post em w
      = (Return (VDict [("error", VStr (exn_str e))]), w')
      /\ body w' = body w
      /\ (live em w = true ->
          exists evs,
            events w'
            = (evs ++ [status_event "error"
                         ("Error during RAG query: " ++ exn_str e) true])%list))
  /\ (forall context,
         OpenwebuiPipe.build_context (removelast l) [] = Return context ->
         exists w',
           OpenwebuiPipe.pipe clock post urljoin em w
           = (Return (VDict [("error",
                              VStr ("Error during RAG query: " ++ exn_str e))]),
              w')
           /\ body w' = body w
           /\ (live em w = true ->
               exists evs,
                 events w'
                 = (evs ++ [status_event "error"
                              ("Error during RAG query: " ++ exn_str e)
                              true])%list)).
Proof.
  intros (Hm & Hne & Hq) [Hpost | (resp & Hpost & Hst & Hjson)]; split.
  - enter_turn Hm Hq. rewrite Hpost; run.
    finish. split; [reflexivity|].
    intros Hlive. apply last_event_done. still_live Hlive.
  - intros context Hctx. enter_turn Hm Hq.
    cbn [iter_init]; run. rewrite Hctx; run. rewrite Hpost; run.
    finish. split; [reflexivity|].
    intros Hlive. apply last_event_done. still_live Hlive.
  - enter_turn Hm Hq. rewrite Hpost; run. rewrite Hst, Hjson.
    change (200 =? 200) with true; run.
    finish. split; [reflexivity|].
    intros Hlive. apply last_event_done. still_live Hlive.
  - intros context Hctx. enter_turn Hm Hq.
    cbn [iter_init]; run. rewrite Hctx; run. rewrite Hpost; run.
    rewrite Hst, Hjson. change (200 =? 200) with true; run.
    finish. split; [reflexivity|].
    intros Hlive. apply last_event_done. still_live Hlive.
Qed.

(** X12: on a 200 reply that is a JSON object, Flavor A returns the
    object's "answer" as it is (the empty string when there is none) and
    appends the system message for a non-empty log, then the assistant
    message whose content is the value returned. *)
Theorem pipe_A_success em (w : world time) l q resp d :
  turn w l q ->
  (forall r, post r = Return resp) ->
  status_code resp = 200 ->
  response_json resp = Return (VDict d) ->
  let answer := get_or d "answer" (VStr EmptyString) in
  exists w',
    IntelligentRagPipe.pipe clock post em w = (Return answer, w')
    /\ body w' = appended w l (thinking_messages d ++ [message "assistant" answer]).
Proof.
  intros (Hm & Hne & Hq) Hpost Hst Hjson answer. subst answer.
  enter_turn Hm Hq. rewrite Hpost; run. rewrite Hst, Hjson.
  change (200 =? 200) with true; run.
  cbn [method_get]. unfold thinking_messages, get_or.
  destruct (dict_get d "answer") as [a|]; run;
    (destruct (dict_get d "log") as [log|]; run;
     [ destruct (truthy log); run; rewrite Hm; run;
       [ rewrite (dict_get_set _ _ _ _ Hm); run;
         finish; unfold appended;
         rewrite (dict_set_set _ _ _ _ _ Hm), <- app_assoc; reflexivity
       | finish; reflexivity ]
     | cbn [truthy String.eqb negb]; run; rewrite Hm; run;
       finish; reflexivity ]).
Qed.

(** X13: on a 200 reply that is a JSON object with an "answer", Flavor B
    appends the one assistant message whose content is the value it returns:
    the answer as it is when the object has no "log" key, and otherwise the
    answer's text followed by the fenced block of the serialized log, even
    for a null or empty log. *)
Theorem pipe_B_success em (w : world time) l q resp d a context :
  turn w l q ->
  OpenwebuiPipe.build_context (removelast l) [] = Return context ->
  (forall r, post r = Return resp) ->
  status_code resp = 200 ->
  response_json resp = Return (VDict d) ->
  dict_get d "answer" = Some a ->
  let answer :=
    match dict_get d "log" with
    | Some log => VStr (with_reasoning a log)
    | None => a
    end in
  exists w',
    OpenwebuiPipe.pipe clock post urljoin em w = (Return answer, w')
    /\ body w' = appended w l [message "assistant" answer].
Proof.
  intros (Hm & Hne & Hq) Hctx Hpost Hst Hjson Hans answer. subst answer.
  enter_turn Hm Hq. cbn [iter_init]; run.
  rewrite Hctx; run. rewrite Hpost; run. rewrite Hst, Hjson.
  change (200 =? 200) with true; run.
  cbn [subscript contains]. rewrite Hans. run.
  destruct (dict_get d "log") as [log|]; run; rewrite Hm; run;
    finish; reflexivity.
Qed.

(** X18: when the "messages" entry of the body is anything but a list,
    both flavors raise; no request is made and the body is left as it
    was. *)
Theorem pipe_messages_not_a_list em (w : world time) v :
  dict_get (body w) "messages" = Some v ->
  (forall l, v <> VList l) ->
  (exists e w',
      IntelligentRagPipe.pipe clock post em w = (Raise e, w')
      /\ body w' = body w /\ requests w' = requests w)
  /\ (exists e w',
         OpenwebuiPipe.pipe clock post urljoin em w = (Raise e, w')
         /\ body w' = body w /\ requests w' = requests w).
Proof.
  intros Hm Hv.
  destruct v as [|b|z|s|l|d]; [| | | |exfalso; exact (Hv l eq_refl)|]; split;
    enter; rewrite Hm; cbn [truthy index_last];
    try (destruct b); try (destruct (z =? 0)); try (destruct s as [|c s]);
    try (destruct d as [|p d]); cbn [String.eqb negb]; run; rewrite ?Hm; run;
    do 2 eexists; (split; [reflexivity|]); run; split; reflexivity.
Qed.

End Properties.

(** * Concrete runs

    Integer clock readings starting at 100, the default configuration, a
    sink, and a service that gives the same reply to every request. *)

(** C1, witness: Flavor A on [{"messages": []}]. *)
Lemma pipe_empty_messages_witness :
  dict_get (body (world0 [("messages", VList [])])) "messages" = Some (VList [])
  /\ exists w',
      IntelligentRagPipe.pipe (ops := Ztime) clock0
        (service 200 EmptyString (Return (VDict []))) sink0
        (world0 [("messages", VList [])])
      = (Raise (UnboundLocalError "answer"), w').
Proof.
  split; [reflexivity|].
  destruct (pipe_empty_messages (ops := Ztime) clock0
              (service 200 EmptyString (Return (VDict []))) urljoin0 sink0
              (world0 [("messages", VList [])]) eq_refl)
    as [(w' & H & _) _].
  exists w'; exact H.
Defined.

(** C2, counterexample: a body whose only message has no "content" makes
    Flavor B raise KeyError out of [pipe]. *)
Lemma pipe_B_raises_without_content :
  fst (OpenwebuiPipe.pipe (ops := Ztime) clock0
         (service 200 EmptyString (Return (VDict [("answer", VStr "X")])))
         urljoin0 sink0
         (world0 [("messages", VList [VDict [("role", VStr "user")]])]))
  = Raise (KeyError (VStr "content")).
Proof. vm_compute. reflexivity. Qed.

(** C2, witness: the turn [ask "Q"] with a service that answers 503. *)
Lemma pipe_returns_on_well_formed_turn_witness :
  dict_get (body (world0 (ask "Q"))) "messages"
  = Some (VList [message "user" (VStr "Q")])
  /\ (exists q, subscript (last [message "user" (VStr "Q")] VNone) "content"
                = Return q)
  /\ (exists v w',
         OpenwebuiPipe.pipe (ops := Ztime) clock0
           (service 503 "busy" (Raise (JSONDecodeError "no JSON")))
           urljoin0 sink0 (world0 (ask "Q"))
         = (Return v, w')).
Proof.
  assert (Hq : exists q,
             subscript (last [message "user" (VStr "Q")] VNone) "content"
             = Return q)
    by (exists (VStr "Q"); reflexivity).
  split; [reflexivity|]. split; [exact Hq|].
  destruct (pipe_returns_on_well_formed_turn (ops := Ztime) clock0
              (service 503 "busy" (Raise (JSONDecodeError "no JSON")))
              urljoin0 sink0 (world0 (ask "Q")) _ eq_refl (or_intror Hq))
    as [(v & w' & H & _) _].
  exists v, w'; exact H.
Defined.

(** C3, counterexample: on a 500 reply with body "server error" Flavor A
    does not return the prefixed text. *)
Lemma pipe_A_status_500_unprefixed :
  fst (IntelligentRagPipe.pipe (ops := Ztime) clock0
         (service 500 "server error" (Raise (JSONDecodeError "no JSON")))
         sink0 (world0 (ask "Q")))
  <> Return (VDict [("error",
                     VStr "Error during RAG query: Error: 500 - server error")]).
Proof. vm_compute. discriminate. Qed.

(** C3, witness. *)
Lemma pipe_status_500_witness :
  turn (world0 (ask "Q")) [message "user" (VStr "Q")] (VStr "Q")
  /\ (exists w',
         OpenwebuiPipe.pipe (ops := Ztime) clock0
           (service 500 "server error" (Raise (JSONDecodeError "no JSON")))
           urljoin0 sink0 (world0 (ask "Q"))
         = (Return (VDict [("error",
                            VStr "Error during RAG query: Error: 500 - server error")]),
            w')
         /\ body w' = ask "Q").
Proof.
  assert (Ht : turn (world0 (ask "Q")) [message "user" (VStr "Q")] (VStr "Q"))
    by (repeat split; discriminate).
  split; [exact Ht|].
  destruct (pipe_status_500 (ops := Ztime) clock0
              (service 500 "server error" (Raise (JSONDecodeError "no JSON")))
              urljoin0 sink0 _ _ _ _ Ht (fun _ => eq_refl) eq_refl eq_refl)
    as [_ HB].
  destruct (HB [] eq_refl) as (w' & H & Hbody & _).
  exists w'; split; [exact H | exact Hbody].
Defined.

(** C4, counterexample: on a 200 reply [{}] Flavor A returns the empty
    string as the answer, not an error result. *)
Lemma pipe_A_defaults_missing_answer :
  fst (IntelligentRagPipe.pipe (ops := Ztime) clock0
         (service 200 "{}" (Return (VDict []))) sink0 (world0 (ask "Q")))
  = Return (VStr EmptyString).
Proof. vm_compute. reflexivity. Qed.

(** C4, witness. *)
Lemma pipe_reply_without_answer_witness :
  turn (world0 (ask "Q")) [message "user" (VStr "Q")] (VStr "Q")
  /\ (exists w',
         OpenwebuiPipe.pipe (ops := Ztime) clock0
           (service 200 "{}" (Return (VDict []))) urljoin0 sink0
           (world0 (ask "Q"))
         = (Return (VDict [("error", VStr "Error during RAG query: 'answer'")]),
            w')
         /\ body w' = ask "Q").
Proof.
  assert (Ht : turn (world0 (ask "Q")) [message "user" (VStr "Q")] (VStr "Q"))
    by (repeat split; discriminate).
  split; [exact Ht|].
  destruct (pipe_reply_without_answer (ops := Ztime) clock0
              (service 200 "{}" (Return (VDict []))) urljoin0 sink0
              _ _ _ _ [] Ht (fun _ => eq_refl) eq_refl eq_refl eq_refl)
    as [_ (msg & w' & H & Hbody & _ & Hmsg)].
  rewrite (Hmsg [] eq_refl) in H.
  exists w'; split; [exact H | exact Hbody].
Defined.

(** C5, counterexample: after a successful turn the last event Flavor B
    sent says "Response generated successfully", not "Complete". *)
Lemma pipe_B_success_last_event :
  last (events (snd (OpenwebuiPipe.pipe (ops := Ztime) clock0
                       (service 200 "{}" (Return (VDict [("answer", VStr "X")])))
                       urljoin0 sink0 (world0 (ask "Q")))))
       VNone
  <> status_event "info" "Complete" true.
Proof. vm_compute. discriminate. Qed.

(** C5, witness. *)
Lemma pipe_success_final_notification_witness :
  turn (world0 (ask "Q")) [message "user" (VStr "Q")] (VStr "Q")
  /\ live sink0 (world0 (ask "Q")) = true
  /\ (exists w' evs,
         IntelligentRagPipe.pipe (ops := Ztime) clock0
           (service 200 "{}" (Return (VDict [("answer", VStr "X")]))) sink0
           (world0 (ask "Q"))
         = (Return (VStr "X"), w')
         /\ events w' = (evs ++ [status_event "info" "Complete" true])%list).
Proof.
  assert (Ht : turn (world0 (ask "Q")) [message "user" (VStr "Q")] (VStr "Q"))
    by (repeat split; discriminate).
  split; [exact Ht|]. split; [reflexivity|].
  exact (proj1 (pipe_success_final_notification (ops := Ztime) clock0
                  (service 200 "{}" (Return (VDict [("answer", VStr "X")])))
                  urljoin0 sink0 _ _ _ _ [("answer", VStr "X")] (VStr "X")
                  Ht (fun _ => eq_refl) eq_refl eq_refl eq_refl eq_refl)).
Defined.

(** C6, counterexample: with a system message before the question, the
    context Flavor B sends is null, where the data model's wording gives
    "system: S". *)
Lemma pipe_B_context_skips_system :
  map (fun r => subscript (json r) "context")
      (requests (snd (OpenwebuiPipe.pipe (ops := Ztime) clock0
                        (service 200 "{}" (Return (VDict [("answer", VStr "X")])))
                        urljoin0 sink0 (world0 [("messages", VList briefing)]))))
  = [Return VNone]
  /\ claimed_context briefing = VStr "system: S".
Proof. split; vm_compute; reflexivity. Qed.

(** C6, witness. *)
Lemma pipe_B_context_witness :
  turn (world0 [("messages", VList briefing)]) briefing (VStr "Q")
  /\ forallb well_formed (removelast briefing) = true
  /\ (exists o w' r,
         OpenwebuiPipe.pipe (ops := Ztime) clock0
           (service 200 "{}" (Return (VDict [("answer", VStr "X")])))
           urljoin0 sink0 (world0 [("messages", VList briefing)])
         = (o, w')
         /\ requests w' = [r]
         /\ subscript (json r) "context" = Return VNone).
Proof.
  assert (Ht : turn (world0 [("messages", VList briefing)]) briefing (VStr "Q"))
    by (repeat split; discriminate).
  split; [exact Ht|]. split; [reflexivity|].
  destruct (pipe_B_context (ops := Ztime) clock0
              (service 200 "{}" (Return (VDict [("answer", VStr "X")])))
              urljoin0 sink0 _ _ _ Ht eq_refl)
    as (o & w' & r & H & Hreq & _ & Hctx & _).
  exists o, w', r. split; [exact H|]. split; [exact Hreq | exact Hctx].
Defined.

(** C7, an instance: a done event reaches the sink at once. *)
Lemma emit_status_throttle_witness :
  events (snd (IntelligentRagPipe.emit_status (ops := Ztime) clock0 sink0
                 "info" "Complete" true (world0 [])))
  = [status_event "info" "Complete" true].
Proof.
  destruct (emit_status_throttle (ops := Ztime) clock0) as [HA _].
  destruct (HA sink0 "info" "Complete" true (world0 [])) as (_ & _ & Hon).
  destruct (Hon eq_refl ltac:(discriminate)) as [Hdue _].
  exact (proj1 (Hdue (or_intror eq_refl))).
Defined.

(** C8, witness: the reply [{"answer": "X", "log": "Y"}]. *)
Lemma pipe_answer_and_log_witness :
  turn (world0 (ask "Q")) [message "user" (VStr "Q")] (VStr "Q")
  /\ "Y" <> EmptyString
  /\ (exists w',
         IntelligentRagPipe.pipe (ops := Ztime) clock0
           (service 200 "{}" (Return (VDict [("answer", VStr "X");
                                             ("log", VStr "Y")])))
           sink0 (world0 (ask "Q"))
         = (Return (VStr "X"), w')
         /\ body w'
            = [("messages",
                VList [message "user" (VStr "Q");
                       message "system" (VStr ("Thinking process:" ++ nl ++ "Y"));
                       message "assistant" (VStr "X")])])
  /\ (exists w',
         OpenwebuiPipe.pipe (ops := Ztime) clock0
           (service 200 "{}" (Return (VDict [("answer", VStr "X");
                                             ("log", VStr "Y")])))
           urljoin0 sink0 (world0 (ask "Q"))
         = (Return (VStr ("X" ++ nl ++ nl ++ "```json" ++ nl ++ "Reasoning:" ++ nl
                              ++ dquote ++ "Y" ++ dquote ++ nl ++ "```")), w')
         /\ body w'
            = [("messages",
                VList [message "user" (VStr "Q");
                       message "assistant"
                         (VStr ("X" ++ nl ++ nl ++ "```json" ++ nl ++ "Reasoning:"
                                    ++ nl ++ dquote ++ "Y" ++ dquote ++ nl
                                    ++ "```"))])]).
Proof.
  assert (Ht : turn (world0 (ask "Q")) [message "user" (VStr "Q")] (VStr "Q"))
    by (repeat split; discriminate).
  assert (HY : "Y" <> EmptyString) by discriminate.
  split; [exact Ht|]. split; [exact HY|].
  destruct (pipe_answer_and_log (ops := Ztime) clock0
              (service 200 "{}" (Return (VDict [("answer", VStr "X");
                                                ("log", VStr "Y")])))
              urljoin0 sink0 _ _ _ _
              [("answer", VStr "X"); ("log", VStr "Y")] "X" "Y"
              Ht (fun _ => eq_refl) eq_refl eq_refl eq_refl eq_refl HY)
    as [HA HB].
  split; [exact HA | exact (HB [] eq_refl)].
Defined.

(** C9, witness: a malformed 200 body. *)
Lemma pipe_failure_keeps_messages_witness :
  turn (world0 (ask "Q")) [message "user" (VStr "Q")] (VStr "Q")
  /\ (forall r, dispatch_failed
                  (service 200 "<html>" (Raise (JSONDecodeError "no JSON")) r)
                = true)
  /\ (exists msg w',
         IntelligentRagPipe.pipe (ops := Ztime) clock0
           (service 200 "<html>" (Raise (JSONDecodeError "no JSON"))) sink0
           (world0 (ask "Q"))
         = (Return (error_result msg), w')
         /\ body w' = ask "Q").
Proof.
  assert (Ht : turn (world0 (ask "Q")) [message "user" (VStr "Q")] (VStr "Q"))
    by (repeat split; discriminate).
  split; [exact Ht|]. split; [intros r; reflexivity|].
  exact (proj1 (pipe_failure_keeps_messages (ops := Ztime) clock0
                  (service 200 "<html>" (Raise (JSONDecodeError "no JSON")))
                  urljoin0 sink0 _ _ _ Ht (fun _ => eq_refl))).
Defined.

(** * Further concrete runs *)

(** X1, witness: a closure of a string and two dicts. *)
Lemma extract_event_info_first_dict_witness :
  forallb (fun c => negb (is_dict c)) [VStr "self"] = true
  /\ extract_event_info
       (Some {| closure := Some [VStr "self";
                                 VDict [("chat_id", VStr "c1")];
                                 VDict [("chat_id", VStr "c2")]] |})
     = (VStr "c1", VNone).
Proof.
  split; [reflexivity|].
  exact (extract_event_info_first_dict [VStr "self"] [("chat_id", VStr "c1")]
           [VDict [("chat_id", VStr "c2")]] eq_refl).
Defined.

(** X2, witness: a closure without a dict. *)
Lemma extract_event_info_no_dict_witness :
  no_request_info (Some {| closure := Some [VInt 1; VStr "x"] |}) = true
  /\ extract_event_info (Some {| closure := Some [VInt 1; VStr "x"] |})
     = (VNone, VNone).
Proof.
  split; [reflexivity|].
  exact (extract_event_info_no_dict
           (Some {| closure := Some [VInt 1; VStr "x"] |}) eq_refl).
Defined.

(** X4, witness: readings 100 and 101 with an interval of 2. *)
Lemma emit_status_twice_witness :
  live sink0 (world0 []) = true
  /\ elapsed (ops := Ztime) clock0 (world0 []) = true
  /\ (exists w',
         bind (IntelligentRagPipe.emit_status (ops := Ztime) clock0 sink0
                 "info" "first" false)
              (fun _ => IntelligentRagPipe.emit_status (ops := Ztime) clock0 sink0
                          "info" "second" false)
              (world0 [])
         = (Return tt, w')
         /\ events w' = [status_event "info" "first" false]
         /\ last_emit_time w' = 100).
Proof.
  split; [reflexivity|]. split; [reflexivity|].
  exact (proj1 (emit_status_twice (ops := Ztime) clock0 sink0
                  "info" "first" "info" "second" false (world0 [])
                  eq_refl eq_refl eq_refl)).
Defined.

(** X5, witness: no sink. *)
Lemma pipe_silent_when_off_witness :
  live None (world0 (ask "Q")) = false
  /\ events (snd (IntelligentRagPipe.pipe (ops := Ztime) clock0
                    (service 200 "{}" (Return (VDict [("answer", VStr "X")])))
                    None (world0 (ask "Q"))))
     = [].
Proof.
  split; [reflexivity|].
  exact (proj1 (proj1 (pipe_silent_when_off (ops := Ztime) clock0
                         (service 200 "{}"
                            (Return (VDict [("answer", VStr "X")])))
                         urljoin0 None (world0 (ask "Q")) eq_refl)
                  _ _ (surjective_pairing _))).
Defined.

(** X7, witness. *)
Lemma pipe_one_terminal_event_witness :
  turn (world0 (ask "Q")) [message "user" (VStr "Q")] (VStr "Q")
  /\ live sink0 (world0 (ask "Q")) = true
  /\ (exists progress terminal,
         events (snd (OpenwebuiPipe.pipe (ops := Ztime) clock0
                        (service 200 "{}" (Return (VDict [("answer", VStr "X")])))
                        urljoin0 sink0 (world0 (ask "Q"))))
         = (progress ++ [terminal])%list
         /\ event_done terminal = true).
Proof.
  assert (Ht : turn (world0 (ask "Q")) [message "user" (VStr "Q")] (VStr "Q"))
    by (repeat split; discriminate).
  split; [exact Ht|]. split; [reflexivity|].
  destruct (proj2 (pipe_one_terminal_event (ops := Ztime) clock0
                     (service 200 "{}" (Return (VDict [("answer", VStr "X")])))
                     urljoin0 sink0 _ _ _ Ht eq_refl)
              _ _ (surjective_pairing _))
    as (progress & terminal & He & _ & _ & Hd).
  exists progress, terminal. split; [exact He | exact Hd].
Defined.

(** X9, witness. *)
Lemma pipe_appends_only_witness :
  dict_get (body (world0 (ask "Q"))) "messages"
  = Some (VList [message "user" (VStr "Q")])
  /\ (exists extra,
         dict_get
           (body (snd (IntelligentRagPipe.pipe (ops := Ztime) clock0
                         (service 200 "{}"
                            (Return (VDict [("answer", VStr "X");
                                            ("log", VStr "Y")])))
                         sink0 (world0 (ask "Q")))))
           "messages"
         = Some (VList ([message "user" (VStr "Q")] ++ extra))
         /\ (length extra <= 2)%nat).
Proof.
  split; [reflexivity|].
  destruct (proj1 (pipe_appends_only (ops := Ztime) clock0
                     (service 200 "{}"
                        (Return (VDict [("answer", VStr "X"); ("log", VStr "Y")])))
                     urljoin0 sink0 (world0 (ask "Q")) _ eq_refl)
              _ _ (surjective_pairing _))
    as (extra & He & Hn & _).
  exists extra. split; [exact He | exact Hn].
Defined.

(** X10, witness. *)
Lemma pipe_A_request_witness :
  turn (world0 (ask "Q")) [message "user" (VStr "Q")] (VStr "Q")
  /\ requests (snd (IntelligentRagPipe.pipe (ops := Ztime) clock0
                      (service 503 "busy" (Raise (JSONDecodeError "no JSON")))
                      sink0 (world0 (ask "Q"))))
     = [request_A valves0 (VStr "Q")].
Proof.
  assert (Ht : turn (world0 (ask "Q")) [message "user" (VStr "Q")] (VStr "Q"))
    by (repeat split; discriminate).
  split; [exact Ht|].
  exact (pipe_A_request (ops := Ztime) clock0
           (service 503 "busy" (Raise (JSONDecodeError "no JSON")))
           sink0 _ _ _ Ht _ _ (surjective_pairing _)).
Defined.

(** X11, witness. *)
Lemma pipe_B_request_witness :
  turn (world0 [("messages", VList briefing)]) briefing (VStr "Q")
  /\ forallb well_formed (removelast briefing) = true
  /\ requests (snd (OpenwebuiPipe.pipe (ops := Ztime) clock0
                      (service 503 "busy" (Raise (JSONDecodeError "no JSON")))
                      urljoin0 sink0 (world0 [("messages", VList briefing)])))
     = [request_B urljoin0 valves0 (VStr "Q") VNone].
Proof.
  assert (Ht : turn (world0 [("messages", VList briefing)]) briefing (VStr "Q"))
    by (repeat split; discriminate).
  split; [exact Ht|]. split; [reflexivity|].
  exact (pipe_B_request (ops := Ztime) clock0
           (service 503 "busy" (Raise (JSONDecodeError "no JSON")))
           urljoin0 sink0 _ _ _ Ht eq_refl _ _ (surjective_pairing _)).
Defined.

(** X12, witness: a reply with an answer and no log. *)
Lemma pipe_A_success_witness :
  turn (world0 (ask "Q")) [message "user" (VStr "Q")] (VStr "Q")
  /\ (exists w',
         IntelligentRagPipe.pipe (ops := Ztime) clock0
           (service 200 "{}" (Return (VDict [("answer", VStr "X")])))
           sink0 (world0 (ask "Q"))
         = (Return (VStr "X"), w')
         /\ body w'
            = [("messages", VList [message "user" (VStr "Q");
                                   message "assistant" (VStr "X")])]).
Proof.
  assert (Ht : turn (world0 (ask "Q")) [message "user" (VStr "Q")] (VStr "Q"))
    by (repeat split; discriminate).
  split; [exact Ht|].
  exact (pipe_A_success (ops := Ztime) clock0
           (service 200 "{}" (Return (VDict [("answer", VStr "X")])))
           sink0 _ _ _ _ [("answer", VStr "X")]
           Ht (fun _ => eq_refl) eq_refl eq_refl).
Defined.

(** X13, witness: a reply whose log is null. *)
Lemma pipe_B_success_witness :
  turn (world0 (ask "Q")) [message "user" (VStr "Q")] (VStr "Q")
  /\ (exists w',
         OpenwebuiPipe.pipe (ops := Ztime) clock0
           (service 200 "{}"
              (Return (VDict [("answer", VStr "X"); ("log", VNone)])))
           urljoin0 sink0 (world0 (ask "Q"))
         = (Return (VStr ("X" ++ nl ++ nl ++ "```json" ++ nl ++ "Reasoning:" ++ nl
                              ++ "null" ++ nl ++ "```")), w')).
Proof.
  assert (Ht : turn (world0 (ask "Q")) [message "user" (VStr "Q")] (VStr "Q"))
    by (repeat split; discriminate).
  split; [exact Ht|].
  destruct (pipe_B_success (ops := Ztime) clock0
              (service 200 "{}"
                 (Return (VDict [("answer", VStr "X"); ("log", VNone)])))
              urljoin0 sink0 _ _ _ _
              [("answer", VStr "X"); ("log", VNone)] (VStr "X") []
              Ht eq_refl (fun _ => eq_refl) eq_refl eq_refl eq_refl)
    as (w' & H & _).
  exists w'. exact H.
Defined.

(** X14, witness: a 404. *)
Lemma pipe_status_not_200_witness :
  turn (world0 (ask "Q")) [message "user" (VStr "Q")] (VStr "Q")
  /\ (exists w',
         IntelligentRagPipe.pipe (ops := Ztime) clock0
           (service 404 "not found" (Raise (JSONDecodeError "no JSON")))
           sink0 (world0 (ask "Q"))
         = (Return (VDict [("error", VStr "Error: 404 - not found")]), w')
         /\ body w' = ask "Q").
Proof.
  assert (Ht : turn (world0 (ask "Q")) [message "user" (VStr "Q")] (VStr "Q"))
    by (repeat split; discriminate).
  split; [exact Ht|].
  exact (proj1 (pipe_status_not_200 (ops := Ztime) clock0
                  (service 404 "not found" (Raise (JSONDecodeError "no JSON")))
                  urljoin0 sink0 _ _ _ _ Ht (fun _ => eq_refl) eq_refl)).
Defined.

(** X15, witness: the connection is refused. *)
Lemma pipe_exception_text_witness :
  turn (world0 (ask "Q")) [message "user" (VStr "Q")] (VStr "Q")
  /\ (exists w',
         OpenwebuiPipe.pipe (ops := Ztime) clock0
           (fun _ => Raise (RequestException "connection refused"))
           urljoin0 sink0 (world0 (ask "Q"))
         = (Return (VDict [("error",
                            VStr "Error during RAG query: connection refused")]),
            w')
         /\ body w' = ask "Q").
Proof.
  assert (Ht : turn (world0 (ask "Q")) [message "user" (VStr "Q")] (VStr "Q"))
    by (repeat split; discriminate).
  split; [exact Ht|].
  destruct (proj2 (pipe_exception_text (ops := Ztime) clock0
                     (fun _ => Raise (RequestException "connection refused"))
                     urljoin0 sink0 _ _ _
                     (RequestException "connection refused")
                     Ht (or_introl (fun _ => eq_refl)))
              [] eq_refl)
    as (w' & H & Hb & _).
  exists w'. split; [exact H | exact Hb].
Defined.

(** X16, witness: the first message has no role. *)
Lemma pipe_B_malformed_earlier_message_witness :
  turn (world0 [("messages", VList [VDict [("content", VStr "hi")];
                                    message "user" (VStr "Q")])])
       [VDict [("content", VStr "hi")]; message "user" (VStr "Q")] (VStr "Q")
  /\ subscript (VDict [("content", VStr "hi")]) "role"
     = Raise (KeyError (VStr "role"))
  /\ (exists w',
         OpenwebuiPipe.pipe (ops := Ztime) clock0
           (service 200 "{}" (Return (VDict [("answer", VStr "X")])))
           urljoin0 sink0
           (world0 [("messages", VList [VDict [("content", VStr "hi")];
                                        message "user" (VStr "Q")])])
         = (Return (VDict [("error", VStr "Error during RAG query: 'role'")]), w')
         /\ requests w' = []).
Proof.
  assert (Ht : turn (world0 [("messages",
                              VList [VDict [("content", VStr "hi")];
                                     message "user" (VStr "Q")])])
                 [VDict [("content", VStr "hi")]; message "user" (VStr "Q")]
                 (VStr "Q"))
    by (repeat split; discriminate).
  split; [exact Ht|]. split; [reflexivity|].
  destruct (pipe_B_malformed_earlier_message (ops := Ztime) clock0
              (service 200 "{}" (Return (VDict [("answer", VStr "X")])))
              urljoin0 sink0 _ _ _ [] (VDict [("content", VStr "hi")]) []
              (KeyError (VStr "role")) Ht eq_refl eq_refl (or_introl eq_refl))
    as (w' & H & Hr & _).
  exists w'. split; [exact H | exact Hr].
Defined.

(** X17, witness: the empty body. *)
Lemma pipe_without_messages_key_witness :
  dict_get (body (world0 [])) "messages" = None
  /\ (exists w',
         OpenwebuiPipe.pipe (ops := Ztime) clock0
           (service 200 "{}" (Return (VDict [("answer", VStr "X")])))
           urljoin0 sink0 (world0 [])
         = (Raise (KeyError (VStr "messages")), w')).
Proof.
  split; [reflexivity|].
  exact (proj2 (pipe_without_messages_key (ops := Ztime) clock0
                  (service 200 "{}" (Return (VDict [("answer", VStr "X")])))
                  urljoin0 sink0 (world0 []) eq_refl)).
Defined.

(** X18, witness: a string in the place of the message list. *)
Lemma pipe_messages_not_a_list_witness :
  dict_get (body (world0 [("messages", VStr "hi")])) "messages" = Some (VStr "hi")
  /\ (forall l, VStr "hi" <> VList l)
  /\ (exists e w',
         IntelligentRagPipe.pipe (ops := Ztime) clock0
           (service 200 "{}" (Return (VDict [("answer", VStr "X")])))
           sink0 (world0 [("messages", VStr "hi")])
         = (Raise e, w')
         /\ requests w' = []).
Proof.
  assert (Hv : forall l, VStr "hi" <> VList l) by (intros l; discriminate).
  split; [reflexivity|]. split; [exact Hv|].
  destruct (proj1 (pipe_messages_not_a_list (ops := Ztime) clock0
                     (service 200 "{}" (Return (VDict [("answer", VStr "X")])))
                     urljoin0 sink0 (world0 [("messages", VStr "hi")])
                     (VStr "hi") eq_refl Hv))
    as (e & w' & H & _ & Hr).
  exists e, w'. split; [exact H | exact Hr].
Defined.
